(** * target-csv: the message pipeline of [target_csv.py]

    A shallow embedding of [flatten], [persist_messages], [emit_state]
    and [main], and the properties of the specification that concern
    them.

    What lies outside [target_csv.py] is kept at its interface:
    - [singer.parse_message]: the input of [persist_messages] is, line
      by line, what parsing gave, a message or the exception raised;
    - [jsonschema]'s [Draft4Validator], Python's [str] and [json.dumps]
      are parameters;
    - the file system: the files are a finite map from the name of a
      file to its text; which file a path leads to and whether [open]
      raises are parameters, fixed for the run; a write that has begun
      goes through;
    - the [csv] module: the text of a written row and the first row
      read from a text are parameters; the writer ends every row with
      CR LF;
    - [os.path.join] is the one of [posixpath];
    - the clock is read once, into the parameter [date];
    - the logger is left out. *)

From Stdlib Require Import ZArith Floats.
From stdpp Require Import gmap strings list fin_maps pretty.

Local Open Scope string_scope.
Local Open Scope list_scope.
Set Warnings "-register-all".

(** ** Data model *)

(** JSON data as Python's [json] module yields it.  A mapping is an
    association list in insertion order; Python keeps its keys unique. *)
Inductive value : Type :=
| VNone
| VBool (b : bool)
| VInt (n : Z)
| VFloat (f : float)
| VStr (s : string)
| VList (l : list value)
| VDict (d : list (string * value)).

Abbreviation pydict := (list (string * value)).

(** [d.keys()] and [k in d]. *)
Definition keys {A} (d : list (string * A)) : list string := d.*1.

(** [d.get(k, default)]. *)
Fixpoint dict_get {A} (d : list (string * A)) (k : string) (default : A) : A :=
  match d with
  | [] => default
  | (k', v) :: d' => if String.eqb k k' then v else dict_get d' k default
  end.

(** [d[k] = v]: an existing key keeps its position, a new key goes last. *)
Fixpoint dict_set {A} (d : list (string * A)) (k : string) (v : A)
  : list (string * A) :=
  match d with
  | [] => [(k, v)]
  | (k', v') :: d' =>
      if String.eqb k k' then (k, v) :: d' else (k', v') :: dict_set d' k v
  end.

(** [dict(items)]. *)
Definition dict {A} (items : list (string * A)) : list (string * A) :=
  fold_left (fun d kv => dict_set d kv.1 kv.2) items [].

(** Truth value of a Python string. *)
Definition truthy (s : string) : bool :=
  match s with EmptyString => false | _ => true end.

Section Flatten.

(** Python's builtin [str]. *)
Variable str : value -> string.

(** [new_key = parent_key + sep + k if parent_key else k] *)
Definition new_key (parent_key sep k : string) : string :=
  if truthy parent_key then parent_key +:+ sep +:+ k else k.

(** What one entry [(k, v)] of the loop adds to [items], [key] being
    its [new_key]; the inner [fix] is the loop of the recursive call
    [flatten(v, new_key, sep=sep)]. *)
Fixpoint flatten_entry (sep key : string) (v : value) {struct v}
  : list (string * value) :=
  match v with
  | VDict d =>
      dict ((fix loop (d : list (string * value)) :=
               match d with
               | [] => []
               | (k, v') :: d' =>
                   flatten_entry sep (new_key key sep k) v' ++ loop d'
               end) d)
  | VList _ => [(key, VStr (str v))]
  | _ => [(key, v)]
  end.

(** The list [items] at the end of the loop of [flatten(d, parent_key, sep)]. *)
Definition flatten_items (d : pydict) (parent_key sep : string)
  : list (string * value) :=
  flat_map (fun kv => flatten_entry sep (new_key parent_key sep kv.1) kv.2) d.

Definition flatten (d : pydict) (parent_key : string) (sep : string) : pydict :=
  dict (flatten_items d parent_key sep).

End Flatten.

(** ** Environment: exceptions, files, paths *)

(** The exceptions a run can end with. *)
Inductive exn : Type :=
| JSONDecodeError
| MissingSchema (stream : string)
| ValidationError
| KeyError (key : string)
| StopIteration
| OtherError (name : string).

(** A row of fields, as handed to a [csv] writer or yielded by a reader. *)
Abbreviation row := (list string).

(** The regular files, each with its text, under the name by which the
    file system knows the file (see [locate] below); a file of size zero
    has the empty text. *)
Abbreviation filesystem := (gmap string string).

(** Computations that read and write files and may raise. *)
Definition io (A : Type) : Type := filesystem -> (exn + A) * filesystem.

Definition ret {A} (a : A) : io A := fun fs => (inr a, fs).

Definition raise {A} (e : exn) : io A := fun fs => (inl e, fs).

Definition bind {A B} (m : io A) (k : A -> io B) : io B :=
  fun fs =>
    match m fs with
    | (inl e, fs') => (inl e, fs')
    | (inr a, fs') => k a fs'
    end.

Notation "x <- m ;; k" := (bind m (fun x => k))
  (at level 100, m at next level, right associativity).

(** CR LF, the line terminator of the [csv] writer. *)
Definition crlf : string :=
  String (Ascii.ascii_of_nat 13) (String (Ascii.ascii_of_nat 10) EmptyString).

(** [s.endswith("/")] *)
Fixpoint endswith_sep (s : string) : bool :=
  match s with
  | EmptyString => false
  | String _ EmptyString => String.eqb s "/"
  | String _ s' => endswith_sep s'
  end.

(** [os.path.join(a, b)] of [posixpath]. *)
Definition os_path_join (a b : string) : string :=
  if String.prefix "/" b then b
  else if negb (truthy a) || endswith_sep a then a +:+ b
  else a +:+ "/" +:+ b.

(** ** Messages and the state of a run *)

(** [singer.parse_message(message).asdict()], by its ["type"].  The
    parser knows these four types; for any other it returns [None], on
    which [.asdict()] raises. *)
Inductive message : Type :=
| RECORD (stream : string) (record : pydict)
| STATE (value : value)
| SCHEMA (stream : string) (schema : value) (key_properties : value)
| ACTIVATE_VERSION (stream : string) (version : value).

(** A validator: [validate(instance)] returns or raises. *)
Definition validator : Type := value -> option exn.

(** The local variables of [persist_messages]. *)
Record locals : Type := Locals {
  state : value;
  schemas : gmap string value;
  key_properties : gmap string value;
  headers : gmap string row;
  validators : gmap string validator }.

Definition locals_init : locals :=
  {| state := VNone; schemas := ∅; key_properties := ∅; headers := ∅;
     validators := ∅ |}.

Section Pipeline.

(** Python's builtin [str]. *)
Variable str : value -> string.

(** [Draft4Validator(schema).validate(instance)]: [None] when the
    instance conforms, otherwise the exception raised. *)
Variable Draft4Validator : value -> validator.

(** [datetime.now().strftime("%Y-%m-%d")], read once when the run starts. *)
Variable date : string.

(** The file system's reading of a path: the name of the file that the
    path leads to, be the file there or not.  Paths that lead to one
    file ([x] and [./x], a link and its target) have one reading. *)
Variable locate : string -> string.

(** [open(filename, mode)]: the exception it raises, if any: a
    directory of the path is missing, the path is a directory, the mode
    is not permitted. *)
Variable open_error : string -> string -> option exn.

(** The text a [csv] writer with the comma as delimiter and the double
    quote as quote character gives a row, before the line terminator. *)
Variable csv_record : row -> string.

(** [next(reader)] for a [csv.reader] over a text that is not empty:
    the first row, or the exception raised. *)
Variable csv_next : string -> exn + row.

(** [open(filename, mode)] *)
Definition py_open (filename mode : string) : io unit :=
  match open_error filename mode with
  | Some e => raise e
  | None => ret ()
  end.

(** [os.path.isfile(filename)] *)
Definition os_path_isfile (filename : string) : io bool :=
  fun fs => (inr (bool_decide (is_Some (fs !! locate filename))), fs).

(** [os.stat(filename).st_size == 0] *)
Definition st_size_is_zero (filename : string) : io bool :=
  fun fs => (inr (bool_decide (fs !! locate filename = Some "")), fs).

(** [with open(filename, "r") as csvfile: next(csv.reader(csvfile, ...))] *)
Definition read_first_line (filename : string) : io row :=
  _ <- py_open filename "r" ;;
  fun fs =>
    match fs !! locate filename with
    | None => (inl (OtherError "FileNotFoundError"), fs)
    | Some EmptyString => (inl StopIteration, fs)
    | Some text => (csv_next text, fs)
    end.

(** What [writer.writerow] writes for a row, and for rows in turn. *)
Definition writerow (r : row) : string := csv_record r +:+ crlf.

Definition writerows (rows : list row) : string :=
  fold_right (fun r text => writerow r +:+ text) "" rows.

(** [with open(filename, "a") as csvfile:] and the rows written through
    it; the text goes after the text the file has. *)
Definition append_rows (filename : string) (rows : list row) : io unit :=
  _ <- py_open filename "a" ;;
  fun fs =>
    (inr (),
     <[locate filename :=
         default "" (fs !! locate filename) +:+ writerows rows]> fs).

(** A field as [csv.writer] writes it. *)
Definition csv_field (v : value) : string :=
  match v with
  | VNone => ""
  | VStr s => s
  | _ => str v
  end.

(** [DictWriter.writerow(rowdict)] with [extrasaction="ignore"] and the
    default [restval=""]: one field per name of [fieldnames]. *)
Definition dict_to_list (fieldnames : row) (rowdict : pydict) : row :=
  (fun key => csv_field (dict_get rowdict key (VStr ""))) <$> fieldnames.

Definition resolve (output_folder stream : string) : string :=
  os_path_join output_folder (stream +:+ "--" +:+ date +:+ ".csv").

(** The body of the loop, after the message has been parsed. *)
Definition body (output_folder : string) (o : message) (l : locals)
  : io locals :=
  match o with
  | RECORD stream record =>
      if negb (bool_decide (stream ∈ dom (schemas l))) then
        raise (MissingSchema stream)
      else
        v <- (match validators l !! stream with
              | Some v => ret v
              | None => raise (KeyError stream)
              end) ;;
        _ <- (match v (VDict record) with
              | Some e => raise e
              | None => ret ()
              end) ;;
        let filename := resolve output_folder stream in
        isfile <- os_path_isfile filename ;;
        file_is_empty <- (if negb isfile then ret true
                          else st_size_is_zero filename) ;;
        let flattened_record := flatten str record "" "__" in
        header <- (if bool_decide (stream ∉ dom (headers l))
                      && negb file_is_empty
                   then
                     first_line <- read_first_line filename ;;
                     ret (match first_line with
                          | [] => keys flattened_record
                          | _ => first_line
                          end)
                   else ret (keys flattened_record)) ;;
        let headers' := <[stream := header]> (headers l) in
        _ <- append_rows filename
               ((if file_is_empty : bool then [header] else [])
                  ++ [dict_to_list header flattened_record]) ;;
        ret {| state := VNone; schemas := schemas l;
               key_properties := key_properties l; headers := headers';
               validators := validators l |}
  | STATE value =>
      ret {| state := value; schemas := schemas l;
             key_properties := key_properties l; headers := headers l;
             validators := validators l |}
  | SCHEMA stream schema kp =>
      ret {| state := state l;
             schemas := <[stream := schema]> (schemas l);
             key_properties := <[stream := kp]> (key_properties l);
             headers := headers l;
             validators := <[stream := Draft4Validator schema]> (validators l) |}
  | ACTIVATE_VERSION _ _ => ret l
  end.

(** The [for] loop; each element of [messages] is what
    [singer.parse_message(message).asdict()] gave for a line: the
    message, or the exception raised (a JSONDecodeError is logged and
    raised again, any other is not caught). *)
Fixpoint loop (output_folder : string) (messages : list (exn + message))
    (l : locals) : io locals :=
  match messages with
  | [] => ret l
  | inl e :: _ => raise e
  | inr o :: messages' =>
      l' <- body output_folder o l ;;
      loop output_folder messages' l'
  end.

Definition persist_messages (messages : list (exn + message))
    (output_folder : string) : io value :=
  l <- loop output_folder messages locals_init ;;
  ret (state l).

End Pipeline.

(** ** Definitions used to state the properties *)

(** [not os.path.isfile(filename) or os.stat(filename).st_size == 0] as
    a function of the files and of the file the path leads to. *)
Definition file_is_empty (fs : filesystem) (file : string) : bool :=
  match fs !! file with
  | None | Some EmptyString => true
  | Some (String _ _) => false
  end.

Definition is_record (o : message) : bool :=
  match o with RECORD _ _ => true | _ => false end.

(** The value of the last STATE message of [os], with the messages that
    follow it. *)
Fixpoint last_state (os : list message) : option (value * list message) :=
  match os with
  | [] => None
  | o :: os' =>
      match last_state os' with
      | Some found => Some found
      | None => match o with STATE v => Some (v, os') | _ => None end
      end
  end.

(** The checkpoint in the words of the specification: the value of the
    last STATE message when no RECORD message follows it, none otherwise. *)
Definition checkpoint (os : list message) : value :=
  match last_state os with
  | Some (v, following) => if existsb is_record following then VNone else v
  | None => VNone
  end.

(** A SCHEMA message for [stream]. *)
Definition is_schema_for (stream : string) (m : exn + message) : bool :=
  match m with
  | inr (SCHEMA stream' _ _) => String.eqb stream stream'
  | _ => false
  end.

(** A RECORD message for [stream]. *)
Definition is_record_for (stream : string) (m : exn + message) : bool :=
  match m with
  | inr (RECORD stream' _) => String.eqb stream stream'
  | _ => false
  end.

(** The number of RECORD messages for [stream]. *)
Definition records_for (stream : string) (messages : list (exn + message))
  : nat :=
  length (List.filter (is_record_for stream) messages).

(** A message with its [key_properties] blanked. *)
Definition erase_key_properties (m : exn + message) : exn + message :=
  match m with
  | inr (SCHEMA stream schema _) => inr (SCHEMA stream schema VNone)
  | _ => m
  end.

(** The locals apart from [key_properties]. *)
Definition forget_key_properties (l : locals) : locals :=
  {| state := state l; schemas := schemas l; key_properties := ∅;
     headers := headers l; validators := validators l |}.

(** The outcome of a step apart from [key_properties]. *)
Definition forget_outcome (r : (exn + locals) * filesystem)
  : (exn + locals) * filesystem :=
  (match r.1 with
   | inl e => inl e
   | inr l => inr (forget_key_properties l)
   end, r.2).

Section Reference.

Variable str : value -> string.
Variable Draft4Validator : value -> validator.
Variable date : string.
Variable locate : string -> string.
Variable open_error : string -> string -> option exn.
Variable csv_record : row -> string.
Variable csv_next : string -> exn + row.

(** Every line decodes, every RECORD comes after a SCHEMA for its
    stream and conforms to the latest one; [declared] holds the
    schemas seen so far. *)
Fixpoint accepted (declared : gmap string value)
    (messages : list (exn + message)) : bool :=
  match messages with
  | [] => true
  | inl _ :: _ => false
  | inr (RECORD stream record) :: messages' =>
      match declared !! stream with
      | Some schema =>
          match Draft4Validator schema (VDict record) with
          | None => accepted declared messages'
          | Some _ => false
          end
      | None => false
      end
  | inr (SCHEMA stream schema _) :: messages' =>
      accepted (<[stream := schema]> declared) messages'
  | inr _ :: messages' => accepted declared messages'
  end.

(** The records of the RECORD messages whose path leads to [file]. *)
Fixpoint records_to (output_folder file : string)
    (messages : list (exn + message)) : list pydict :=
  match messages with
  | [] => []
  | inr (RECORD stream record) :: messages' =>
      if String.eqb (locate (resolve date output_folder stream)) file
      then record :: records_to output_folder file messages'
      else records_to output_folder file messages'
  | _ :: messages' => records_to output_folder file messages'
  end.

(** The flattener in the words of the specification.  [prefixed k]
    puts the key of the enclosing entry and the separator before a key
    of the flattened nested mapping. *)
Definition prefixed (k : string) (kv : string * value) : string * value :=
  (k +:+ "__" +:+ kv.1, kv.2).

Fixpoint flatten_ref_entry (k : string) (v : value) {struct v}
  : list (string * value) :=
  match v with
  | VDict d =>
      prefixed k <$>
        dict ((fix each (d : list (string * value)) :=
                 match d with
                 | [] => []
                 | (k', v') :: d' => flatten_ref_entry k' v' ++ each d'
                 end) d)
  | VList _ => [(k, VStr (str v))]
  | _ => [(k, v)]
  end.

Definition flatten_ref (d : pydict) : pydict :=
  dict (flat_map (fun kv => flatten_ref_entry kv.1 kv.2) d).

(** A list value becomes its string, any other value stays. *)
Definition stringified (v : value) : value :=
  match v with VList _ => VStr (str v) | _ => v end.

Definition is_mapping (v : value) : bool :=
  match v with VDict _ => true | _ => false end.

(** The header the RECORD branch stores in [headers] and hands to the
    [DictWriter], or the exception that reading it raises, as a
    function of the locals and the files. *)
Definition header_for (l : locals) (fs : filesystem)
    (filename stream : string) (flattened_record : pydict) : exn + row :=
  if bool_decide (stream ∉ dom (headers l))
     && negb (file_is_empty fs (locate filename))
  then
    match open_error filename "r" with
    | Some e => inl e
    | None =>
        match fs !! locate filename with
        | None => inl (OtherError "FileNotFoundError")
        | Some EmptyString => inl StopIteration
        | Some text =>
            match csv_next text with
            | inl e => inl e
            | inr [] => inr (keys flattened_record)
            | inr first_line => inr first_line
            end
        end
    end
  else inr (keys flattened_record).

(** The locals and the files after the RECORD branch has run. *)
Definition record_locals (l : locals) (stream : string) (header : row)
  : locals :=
  {| state := VNone; schemas := schemas l;
     key_properties := key_properties l;
     headers := <[stream := header]> (headers l);
     validators := validators l |}.

Definition record_written (fs : filesystem) (file : string)
    (header : row) (flattened_record : pydict) : filesystem :=
  <[file := default "" (fs !! file)
            +:+ (if file_is_empty fs file
                 then writerow csv_record header else "")
            +:+ writerow csv_record
                  (dict_to_list str header flattened_record)]> fs.

(** The validators are the compiled schemas. *)
Definition compiled (l : locals) : Prop :=
  validators l = Draft4Validator <$> schemas l.

(** The fields of a flattened record, in the order of its keys. *)
Definition own_row (record : pydict) : row :=
  csv_field str <$> (flatten str record "" "__").*2.

(** A RECORD of another stream whose path leads to the file of [stream]. *)
Definition shares_file (output_folder stream : string) (m : exn + message)
  : bool :=
  match m with
  | inr (RECORD stream' _) =>
      String.eqb (locate (resolve date output_folder stream'))
        (locate (resolve date output_folder stream))
      && negb (String.eqb stream' stream)
  | _ => false
  end.

End Reference.

(** ** The entry point *)

(** [d[k]] on a mapping. *)
Fixpoint dict_find {A} (d : list (string * A)) (k : string) : option A :=
  match d with
  | [] => None
  | (k', v) :: d' => if String.eqb k k' then Some v else dict_find d' k
  end.

(** [config[key]]: a mapping without the key raises KeyError, anything
    but a mapping takes no string subscript. *)
Definition getitem (config : value) (key : string) : exn + value :=
  match config with
  | VDict d =>
      match dict_find d key with
      | Some v => inr v
      | None => inl (KeyError key)
      end
  | _ => inl (OtherError "TypeError")
  end.

(** The line feed. *)
Definition newline : string := String (Ascii.ascii_of_nat 10) EmptyString.

(** A STATE message. *)
Definition is_state (m : exn + message) : bool :=
  match m with inr (STATE _) => true | _ => false end.

(** A value that is neither a mapping nor a list. *)
Definition is_scalar (v : value) : bool :=
  match v with VDict _ | VList _ => false | _ => true end.

Section Main.

Variable str : value -> string.
Variable Draft4Validator : value -> validator.
Variable date : string.
Variable locate : string -> string.
Variable open_error : string -> string -> option exn.
Variable csv_record : row -> string.
Variable csv_next : string -> exn + row.

(** [json.dumps] *)
Variable json_dumps : value -> string.

(** [emit_state(state)]; standard output is the list of the strings
    written to it. *)
Definition emit_state (state : value) (stdout : list string) : list string :=
  match state with
  | VNone => stdout
  | _ =>
      let line := json_dumps state in
      stdout ++ [line +:+ newline]
  end.

(** The body of the loop when [output_folder] is not a string:
    [os.path.join(output_folder, filename)] raises TypeError. *)
Definition body_unjoinable (o : message) (l : locals) : io locals :=
  match o with
  | RECORD stream record =>
      if negb (bool_decide (stream ∈ dom (schemas l))) then
        raise (MissingSchema stream)
      else
        v <- (match validators l !! stream with
              | Some v => ret v
              | None => raise (KeyError stream)
              end) ;;
        _ <- (match v (VDict record) with
              | Some e => raise e
              | None => ret ()
              end) ;;
        raise (OtherError "TypeError")
  | STATE value =>
      ret {| state := value; schemas := schemas l;
             key_properties := key_properties l; headers := headers l;
             validators := validators l |}
  | SCHEMA stream schema kp =>
      ret {| state := state l;
             schemas := <[stream := schema]> (schemas l);
             key_properties := <[stream := kp]> (key_properties l);
             headers := headers l;
             validators := <[stream := Draft4Validator schema]> (validators l) |}
  | ACTIVATE_VERSION _ _ => ret l
  end.

Fixpoint loop_unjoinable (messages : list (exn + message)) (l : locals)
  : io locals :=
  match messages with
  | [] => ret l
  | inl e :: _ => raise e
  | inr o :: messages' =>
      l' <- body_unjoinable o l ;;
      loop_unjoinable messages' l'
  end.

(** [persist_messages(messages, output_folder)] for whatever value the
    configuration holds under ["output_folder"]. *)
Definition persist_messages_in (messages : list (exn + message))
    (output_folder : value) : io value :=
  match output_folder with
  | VStr folder =>
      persist_messages str Draft4Validator date locate open_error
        csv_record csv_next messages folder
  | _ =>
      l <- loop_unjoinable messages locals_init ;;
      ret (state l)
  end.

(** [main()].  [config_arg] is [None] without [--config], and otherwise
    what opening and loading the file gave: the JSON value, or the
    exception raised.  The result is the exception that ends the
    process, if any, with the files and standard output left behind. *)
Definition main (config_arg : option (exn + value))
    (input_messages : list (exn + message))
    (fs : filesystem) (stdout : list string)
  : (exn + unit) * filesystem * list string :=
  match (match config_arg with
         | Some loaded => loaded
         | None => inr (VDict [])
         end) with
  | inl e => (inl e, fs, stdout)
  | inr config =>
      match getitem config "output_folder" with
      | inl e => (inl e, fs, stdout)
      | inr output_folder =>
          match persist_messages_in input_messages output_folder fs with
          | (inl e, fs') => (inl e, fs', stdout)
          | (inr state, fs') => (inr (), fs', emit_state state stdout)
          end
      end
  end.

End Main.

(** The locals apart from the checkpoint. *)
Definition forget_state (l : locals) : locals :=
  {| state := VNone; schemas := schemas l;
     key_properties := key_properties l; headers := headers l;
     validators := validators l |}.

(** How a run ended apart from the checkpoint: the exception raised, if
    any, and the files. *)
Definition forget_state_outcome (r : (exn + locals) * filesystem)
  : (exn + locals) * filesystem :=
  (match r.1 with
   | inl e => inl e
   | inr l => inr (forget_state l)
   end, r.2).

Definition raised {A} (r : (exn + A) * filesystem) : option exn :=
  match r.1 with inl e => Some e | inr _ => None end.

(** ** Instances for the examples *)

(** [str] on the scalars of the examples. *)
Definition str_scalar (v : value) : string :=
  match v with
  | VNone => "None"
  | VBool true => "True"
  | VBool false => "False"
  | VInt n => pretty n
  | VStr s => s
  | _ => ""
  end.

(** A validator for the examples: the schema [{}] accepts every
    instance, any other schema wants an integer under ["id"]. *)
Definition Draft4Validator_example : value -> validator :=
  fun schema instance =>
    match schema, instance with
    | VDict [], _ => None
    | _, VDict d =>
        match dict_get d "id" VNone with
        | VInt _ => None
        | _ => Some ValidationError
        end
    | _, _ => Some ValidationError
    end.

(** A file system in which every path is the name of its own file and
    every file can be opened. *)
Definition locate_plain : string -> string := fun filename => filename.

Definition open_freely : string -> string -> option exn := fun _ _ => None.

(** The folder ["out"] without a subfolder ["a"]: the path of the
    stream ["a/b"] cannot be opened. *)
Definition open_no_subfolder (filename mode : string) : option exn :=
  if String.prefix "out/a/" filename
  then Some (OtherError "FileNotFoundError")
  else None.

(** The [csv] writer on rows whose fields need no quoting: the fields
    with commas between them. *)
Definition csv_record_plain (r : row) : string := String.concat "," r.

(** The [csv] reader on a first line without quotes: the fields
    between the commas, up to the end of the line; [field] is the part
    already read of the field at hand. *)
Fixpoint first_line_fields (text field : string) : row :=
  match text with
  | EmptyString => [field]
  | String c rest =>
      if Ascii.eqb c (Ascii.ascii_of_nat 44) then
        field :: first_line_fields rest ""
      else if Ascii.eqb c (Ascii.ascii_of_nat 13)
              || Ascii.eqb c (Ascii.ascii_of_nat 10) then [field]
      else first_line_fields rest (field +:+ String c EmptyString)
  end.

Definition csv_next_plain (text : string) : exn + row :=
  inr (match first_line_fields text "" with
       | [EmptyString] => []
       | fields => fields
       end).

(** [json.dumps] on the scalars of the examples. *)
Definition json_dumps_scalar (v : value) : string :=
  match v with
  | VNone => "null"
  | VBool true => "true"
  | VBool false => "false"
  | VInt n => pretty n
  | _ => ""
  end.

(** The run date and the messages of the examples. *)
Definition run_date : string := "2026-11-04".

Definition any_schema : value := VDict [].

Definition orders_schema : value :=
  VDict [("type", VStr "object"); ("required", VList [VStr "id"])].

(** The program in the environment of the examples. *)
Definition body_example : string -> message -> locals -> io locals :=
  body str_scalar Draft4Validator_example run_date locate_plain open_freely
    csv_record_plain csv_next_plain.

Definition loop_example
  : string -> list (exn + message) -> locals -> io locals :=
  loop str_scalar Draft4Validator_example run_date locate_plain open_freely
    csv_record_plain csv_next_plain.

Definition persist_messages_example
  : list (exn + message) -> string -> io value :=
  persist_messages str_scalar Draft4Validator_example run_date locate_plain
    open_freely csv_record_plain csv_next_plain.

Definition main_example
  : option (exn + value) -> list (exn + message) -> filesystem ->
    list string -> (exn + unit) * filesystem * list string :=
  main str_scalar Draft4Validator_example run_date locate_plain open_freely
    csv_record_plain csv_next_plain json_dumps_scalar.

(** The text of a file that holds these rows, each with its terminator. *)
Definition file_of (rows : list row) : string :=
  writerows csv_record_plain rows.

(** The locals once [SCHEMA("s", {}, [])] has been read. *)
Definition locals_s : locals :=
  {| state := VNone;
     schemas := {["s" := any_schema]};
     key_properties := {["s" := VList []]};
     headers := ∅;
     validators := {["s" := Draft4Validator_example any_schema]} |}.

(** The locals once [SCHEMA("orders", orders_schema, ["id"])] has been read. *)
Definition locals_orders : locals :=
  {| state := VNone;
     schemas := {["orders" := orders_schema]};
     key_properties := {["orders" := VList [VStr "id"]]};
     headers := ∅;
     validators := {["orders" := Draft4Validator_example orders_schema]} |}.

(** The locals and the files once [RECORD("s", {"a": "1"})] has followed
    that SCHEMA in an empty folder ["out"]. *)
Definition locals_s_a : locals :=
  {| state := VNone;
     schemas := {["s" := any_schema]};
     key_properties := {["s" := VList []]};
     headers := {["s" := ["a"]]};
     validators := {["s" := Draft4Validator_example any_schema]} |}.

Definition files_s_a : filesystem :=
  {["out/s--2026-11-04.csv" := file_of [["a"]; ["1"]]]}.


(** A file that an earlier run of the same day left for stream ["s"]. *)
Definition earlier_run : filesystem :=
  {["out/s--2026-11-04.csv" := file_of [["x"; "y"]; ["1"; "2"]]]}.

(** ** Dictionaries *)

Section Dictionaries.

Context {A : Type}.
Implicit Types (d items : list (string * A)) (k : string) (v : A).

Lemma dict_get_absent d k default :
  k ∉ keys d -> dict_get d k default = default.
Proof.
  unfold keys. induction d as [|[k' v'] d IH]; csimpl; [done|].
  intros [Hne Hd]%not_elem_of_cons.
  destruct (String.eqb_spec k k'); [done|]. by apply IH.
Qed.

Lemma dict_get_present d k v default :
  NoDup (keys d) -> (k, v) ∈ d -> dict_get d k default = v.
Proof.
  unfold keys. induction d as [|[k' v'] d IH]; csimpl.
  - intros _ Hin. by apply elem_of_nil in Hin.
  - intros [Hk' Hd]%NoDup_cons [Heq|Hin]%elem_of_cons.
    + injection Heq as -> ->. by rewrite String.eqb_refl.
    + destruct (String.eqb_spec k k') as [->|Hne]; [|by apply IH].
      exfalso. apply Hk'. apply list_elem_of_fmap. by exists (k', v).
Qed.

Lemma keys_dict_set d k v :
  keys (dict_set d k v) = if bool_decide (k ∈ keys d) then keys d
                          else keys d ++ [k].
Proof.
  unfold keys. induction d as [|[k' v'] d IH]; csimpl; [done|].
  destruct (String.eqb_spec k k') as [->|Hne]; csimpl.
  - rewrite bool_decide_eq_true_2; [done|]. apply elem_of_cons. by left.
  - rewrite IH. case_bool_decide as Hin.
    + rewrite bool_decide_eq_true_2; [done|]. apply elem_of_cons. by right.
    + rewrite bool_decide_eq_false_2; [done|].
      intros [?|?]%elem_of_cons; done.
Qed.

Lemma NoDup_dict_set d k v : NoDup (keys d) -> NoDup (keys (dict_set d k v)).
Proof.
  intros Hd. rewrite keys_dict_set. case_bool_decide as Hin; [done|].
  apply NoDup_app. split; [done|]. split; [|apply NoDup_singleton].
  intros x Hx ->%list_elem_of_singleton. done.
Qed.

Lemma NoDup_fold_dict_set items d :
  NoDup (keys d) ->
  NoDup (keys (fold_left (fun d kv => dict_set d kv.1 kv.2) items d)).
Proof.
  revert d. induction items as [|[k v] items IH]; intros d Hd; csimpl; [done|].
  apply IH. by apply NoDup_dict_set.
Qed.

(** A dictionary has no key twice. *)
Lemma NoDup_dict items : NoDup (keys (dict items)).
Proof. apply NoDup_fold_dict_set. apply NoDup_nil_2. Qed.

(** Entries under other keys do not matter to [get]. *)
Lemma dict_get_filter (P : string -> bool) d k default :
  P k = true ->
  dict_get (List.filter (fun kv => P kv.1) d) k default = dict_get d k default.
Proof.
  intros HP. induction d as [|[k' v'] d IH]; csimpl; [done|].
  destruct (String.eqb_spec k k') as [->|Hne].
  - rewrite HP. simpl. by rewrite String.eqb_refl.
  - destruct (P k'); simpl; [|done].
    destruct (String.eqb_spec k k'); [done|]. exact IH.
Qed.

End Dictionaries.

(** ** The flattener *)

Lemma append_assoc (a b c : string) : (a +:+ b) +:+ c = a +:+ b +:+ c.
Proof.
  induction a as [|x a IH]; [done|].
  change (String x ((a +:+ b) +:+ c) = String x (a +:+ b +:+ c)). by f_equal.
Qed.

Lemma append_inj (a b c : string) : a +:+ b = a +:+ c -> b = c.
Proof.
  induction a as [|x a IH]; [done|].
  change (String x (a +:+ b) = String x (a +:+ c) -> b = c).
  intros [= H]. auto.
Qed.

(** Induction on values that reaches inside lists and mappings. *)
Lemma value_nested_ind (P : value -> Prop) :
  P VNone ->
  (forall b, P (VBool b)) ->
  (forall n, P (VInt n)) ->
  (forall f, P (VFloat f)) ->
  (forall s, P (VStr s)) ->
  (forall l, Forall P l -> P (VList l)) ->
  (forall d, Forall (fun kv => P kv.2) d -> P (VDict d)) ->
  forall v, P v.
Proof.
  intros HNone HBool HInt HFloat HStr HList HDict.
  fix IH 1. intros [|b|n|f|s|l|d].
  - exact HNone.
  - apply HBool.
  - apply HInt.
  - apply HFloat.
  - apply HStr.
  - apply HList. induction l as [|v l IHl]; constructor; [apply IH|exact IHl].
  - apply HDict.
    induction d as [|[k v] d IHd]; constructor; [apply IH|exact IHd].
Qed.

Section FlattenProperties.

Variable str : value -> string.

Local Abbreviation flatten := (flatten str).
Local Abbreviation flatten_entry := (flatten_entry str).
Local Abbreviation flatten_ref := (flatten_ref str).
Local Abbreviation flatten_ref_entry := (flatten_ref_entry str).

(** The recursive call on a nested mapping is [flatten] itself. *)
Lemma flatten_entry_dict sep key d :
  flatten_entry sep key (VDict d) = flatten d key sep.
Proof.
  unfold flatten, flatten_items. simpl. f_equal.
  induction d as [|[k v] d IH]; simpl; [done|]. by rewrite IH.
Qed.

Lemma flatten_ref_entry_dict k d :
  flatten_ref_entry k (VDict d) = prefixed k <$> flatten_ref d.
Proof.
  unfold flatten_ref. simpl. f_equal. f_equal.
  induction d as [|[k' v] d IH]; simpl; [done|]. by rewrite IH.
Qed.

Lemma flatten_entry_leaf sep key v :
  is_mapping v = false -> flatten_entry sep key v = [(key, stringified str v)].
Proof. by destruct v. Qed.

(** The first example of the specification. *)
Lemma flatten_example :
  flatten [("a", VDict [("b", VInt 1); ("c", VInt 2)])] "" "__"
  = [("a__b", VInt 1); ("a__c", VInt 2)].
Proof. reflexivity. Qed.

Lemma dict_set_fresh {A} (d : list (string * A)) k v :
  k ∉ keys d -> dict_set d k v = d ++ [(k, v)].
Proof.
  unfold keys. induction d as [|[k' v'] d IH]; csimpl; [done|].
  intros [Hne Hd]%not_elem_of_cons.
  destruct (String.eqb_spec k k'); [done|]. by rewrite IH.
Qed.

Lemma fold_dict_set_fresh {A} (items d : list (string * A)) :
  NoDup (keys (d ++ items)) ->
  fold_left (fun d kv => dict_set d kv.1 kv.2) items d = d ++ items.
Proof.
  revert d. induction items as [|[k v] items IH]; intros d Hd; simpl.
  - by rewrite app_nil_r.
  - assert (Hk : k ∉ keys d).
    { unfold keys in *. rewrite fmap_app in Hd.
      apply NoDup_app in Hd as (_ & Hd & _). intros Hin.
      apply (Hd _ Hin). csimpl. apply elem_of_cons. by left. }
    rewrite dict_set_fresh by done. rewrite IH; rewrite <- app_assoc; done.
Qed.

(** Items with distinct keys make the dictionary that lists them. *)
Lemma dict_NoDup_id {A} (items : list (string * A)) :
  NoDup (keys items) -> dict items = items.
Proof. intros Hd. unfold dict. by rewrite fold_dict_set_fresh. Qed.

(** X1: flattening a mapping without nested mappings changes its list
    values to their strings and nothing else. *)
Lemma flatten_flat d :
  NoDup (keys d) ->
  Forall (fun kv => is_mapping kv.2 = false) d ->
  flatten d "" "__" = (fun kv => (kv.1, stringified str kv.2)) <$> d.
Proof.
  intros Hd Hflat. unfold flatten, flatten_items.
  assert (Hitems : flat_map
            (fun kv => flatten_entry "__" (new_key "" "__" kv.1) kv.2) d
          = (fun kv => (kv.1, stringified str kv.2)) <$> d).
  { induction Hflat as [|[k v] d Hv Hflat IH]; csimpl; [done|].
    rewrite IH by (by apply NoDup_cons in Hd as [_ ?]).
    by rewrite (flatten_entry_leaf _ _ _ Hv). }
  rewrite Hitems. apply dict_NoDup_id.
  unfold keys. by rewrite <- list_fmap_compose.
Qed.

(** Putting a prefix before every key commutes with building the
    dictionary. *)
Lemma dict_set_prefixed k0 (d : pydict) k v :
  dict_set (prefixed k0 <$> d) (k0 +:+ "__" +:+ k) v
  = prefixed k0 <$> dict_set d k v.
Proof.
  induction d as [|[k' v'] d IH]; csimpl; [done|].
  destruct (String.eqb_spec k k') as [->|Hne].
  - by rewrite String.eqb_refl.
  - destruct (String.eqb_spec (k0 +:+ "__" +:+ k) (k0 +:+ "__" +:+ k'))
      as [Heq|_].
    + by do 2 apply append_inj in Heq.
    + csimpl. by rewrite IH.
Qed.

Lemma dict_prefixed k0 (items : pydict) :
  dict (prefixed k0 <$> items) = prefixed k0 <$> dict items.
Proof.
  unfold dict. change (@nil (string * value)) with (prefixed k0 <$> []) at 1.
  generalize (@nil (string * value)).
  induction items as [|[k v] items IH]; intros d; csimpl; [done|].
  by rewrite dict_set_prefixed, IH.
Qed.

Lemma flatten_ref_entry_prefixed k0 k v :
  flatten_ref_entry (k0 +:+ "__" +:+ k) v
  = prefixed k0 <$> flatten_ref_entry k v.
Proof.
  destruct v; try reflexivity.
  rewrite !flatten_ref_entry_dict, <- list_fmap_compose.
  apply list_fmap_ext. intros i [k' v'] _. unfold prefixed. simpl.
  by rewrite !append_assoc.
Qed.

(** Under a key that is not empty the code and the reference agree. *)
Lemma flatten_entry_ref key v :
  key <> "" -> flatten_entry "__" key v = flatten_ref_entry key v.
Proof.
  revert key. induction v as [| | | | |l _|d IH] using value_nested_ind;
    intros key Hkey; try reflexivity.
  rewrite flatten_entry_dict, flatten_ref_entry_dict.
  unfold flatten, flatten_items, flatten_ref. rewrite <- dict_prefixed.
  f_equal. induction IH as [|[k v] d Hv _ IHd]; csimpl; [done|].
  rewrite fmap_app, <- IHd. f_equal.
  assert (Hnew : new_key key "__" k = key +:+ "__" +:+ k).
  { unfold new_key. destruct key; [done|reflexivity]. }
  rewrite Hnew, Hv by (by destruct key).
  apply flatten_ref_entry_prefixed.
Qed.

(** X2: the code is the reference flattener on every mapping whose
    top-level entries holding a mapping have a key that is not empty. *)
Lemma flatten_refines d :
  Forall (fun kv => is_mapping kv.2 = true -> kv.1 <> "") d ->
  flatten d "" "__" = flatten_ref d.
Proof.
  intros Hd. unfold flatten, flatten_items, flatten_ref. f_equal.
  induction Hd as [|[k v] d Hk _ IH]; csimpl; [done|].
  rewrite IH. f_equal. unfold new_key. simpl.
  destruct (is_mapping v) eqn:Hv.
  - apply flatten_entry_ref. by apply Hk.
  - by destruct v.
Qed.

(** C8 at the input [{"": {"b": 1}}]: the reference gives the key
    ["__b"], the nesting path joined by the separator; the code tests
    the truth of [parent_key], takes the empty key for no key at all and
    gives ["b"]. *)
Theorem flatten_empty_key :
  flatten [("", VDict [("b", VInt 1)])] "" "__" = [("b", VInt 1)] /\
  flatten_ref [("", VDict [("b", VInt 1)])] = [("__b", VInt 1)].
Proof. split; reflexivity. Qed.

End FlattenProperties.

(** ** Running the loop *)

Lemma append_nil_r (s : string) : s +:+ "" = s.
Proof.
  induction s as [|c s IH]; [done|].
  change (String c (s +:+ "") = String c s). by rewrite IH.
Qed.

Lemma append_nonempty_r (a b : string) : b <> "" -> a +:+ b <> "".
Proof. destruct a; [done|]. discriminate. Qed.

Lemma file_is_empty_insert (fs : filesystem) file text :
  text <> "" -> file_is_empty (<[file := text]> fs) file = false.
Proof.
  intros Htext. unfold file_is_empty. rewrite lookup_insert_eq.
  by destruct text.
Qed.

Lemma file_is_empty_spec (fs : filesystem) file :
  file_is_empty fs file = true <->
  fs !! file = None \/ fs !! file = Some "".
Proof.
  unfold file_is_empty.
  destruct (fs !! file) as [[|c text]|]; split; intros H; try done;
    try (by left); try (by right); by destruct H.
Qed.

Section Properties.

Variable str : value -> string.
Variable Draft4Validator : value -> validator.
Variable date : string.
Variable locate : string -> string.
Variable open_error : string -> string -> option exn.
Variable csv_record : row -> string.
Variable csv_next : string -> exn + row.

Local Abbreviation body :=
  (body str Draft4Validator date locate open_error csv_record csv_next).
Local Abbreviation loop :=
  (loop str Draft4Validator date locate open_error csv_record csv_next).
Local Abbreviation persist_messages :=
  (persist_messages str Draft4Validator date locate open_error csv_record
     csv_next).
Local Abbreviation resolve := (resolve date).
Local Abbreviation accepted := (accepted Draft4Validator).
Local Abbreviation compiled := (compiled Draft4Validator).
Local Abbreviation header_for := (header_for locate open_error csv_next).
Local Abbreviation record_written := (record_written str csv_record).
Local Abbreviation writerow := (writerow csv_record).
Local Abbreviation writerows := (writerows csv_record).
Local Abbreviation records_to := (records_to date locate).

Lemma writerow_nonempty r : writerow r <> "".
Proof. unfold writerow. by apply append_nonempty_r. Qed.

Lemma loop_app output_folder pre post l fs :
  loop output_folder (pre ++ post) l fs =
  match loop output_folder pre l fs with
  | (inl e, fs') => (inl e, fs')
  | (inr l', fs') => loop output_folder post l' fs'
  end.
Proof.
  revert l fs. induction pre as [|[e|o] pre IH]; intros l fs; simpl.
  - reflexivity.
  - reflexivity.
  - unfold bind. destruct (body output_folder o l fs) as [[e|l'] fs'].
    + reflexivity.
    + apply IH.
Qed.

Lemma loop_cons output_folder o messages l fs :
  loop output_folder (inr o :: messages) l fs =
  match body output_folder o l fs with
  | (inl e, fs') => (inl e, fs')
  | (inr l', fs') => loop output_folder messages l' fs'
  end.
Proof. reflexivity. Qed.

(** The RECORD branch, step by step: the guard, the validator, the
    header, the opening for append, the rows. *)
Lemma body_record output_folder stream record l fs :
  body output_folder (RECORD stream record) l fs =
  if negb (bool_decide (stream ∈ dom (schemas l))) then
    (inl (MissingSchema stream), fs)
  else
    match validators l !! stream with
    | None => (inl (KeyError stream), fs)
    | Some v =>
        match v (VDict record) with
        | Some e => (inl e, fs)
        | None =>
            match header_for l fs (resolve output_folder stream) stream
                    (flatten str record "" "__") with
            | inl e => (inl e, fs)
            | inr header =>
                match open_error (resolve output_folder stream) "a" with
                | Some e => (inl e, fs)
                | None =>
                    (inr (record_locals l stream header),
                     record_written fs
                       (locate (resolve output_folder stream)) header
                       (flatten str record "" "__"))
                end
            end
        end
    end.
Proof.
  simpl.
  destruct (negb (bool_decide (stream ∈ dom (schemas l)))); [reflexivity|].
  unfold bind at 1.
  destruct (validators l !! stream) as [v|]; [|reflexivity].
  unfold ret at 1. unfold bind at 1.
  destruct (v (VDict record)); [reflexivity|]. unfold ret at 1.
  unfold header_for, record_written, file_is_empty, record_locals.
  unfold bind, ret, raise, os_path_isfile, st_size_is_zero, read_first_line,
    append_rows, py_open, bind, ret, raise.
  set (filename := resolve output_folder stream).
  set (flattened_record := flatten str record "" "__").
  destruct (fs !! locate filename) as [[|c text]|] eqn:Hf; simpl;
    repeat (case_bool_decide; simpl);
    try (exfalso; naive_solver);
    repeat match goal with
           | |- context [open_error ?f ?m] =>
               destruct (open_error f m); simpl; rewrite ?Hf; simpl
           | |- context [csv_next ?t] =>
               destruct (csv_next t) as [?|[|??]]; simpl; rewrite ?Hf; simpl
           end;
    rewrite ?Hf; simpl; rewrite ?append_nil_r; try reflexivity.
Qed.


Lemma body_record_missing output_folder stream record l fs :
  schemas l !! stream = None ->
  body output_folder (RECORD stream record) l fs
  = (inl (MissingSchema stream), fs).
Proof.
  intros Hs. rewrite body_record.
  rewrite bool_decide_eq_false_2; [reflexivity|].
  by rewrite not_elem_of_dom.
Qed.

Lemma body_record_invalid output_folder stream record l fs schema e :
  compiled l ->
  schemas l !! stream = Some schema ->
  Draft4Validator schema (VDict record) = Some e ->
  body output_folder (RECORD stream record) l fs = (inl e, fs).
Proof.
  intros Hc Hs Hv. rewrite body_record.
  rewrite bool_decide_eq_true_2 by (apply elem_of_dom; eauto). simpl.
  by rewrite Hc, lookup_fmap, Hs; simpl; rewrite Hv.
Qed.

Lemma body_record_ok output_folder stream record l fs schema header :
  compiled l ->
  schemas l !! stream = Some schema ->
  Draft4Validator schema (VDict record) = None ->
  header_for l fs (resolve output_folder stream) stream
    (flatten str record "" "__") = inr header ->
  open_error (resolve output_folder stream) "a" = None ->
  body output_folder (RECORD stream record) l fs
  = (inr (record_locals l stream header),
     record_written fs (locate (resolve output_folder stream)) header
       (flatten str record "" "__")).
Proof.
  intros Hc Hs Hv Hh Ho. rewrite body_record.
  rewrite bool_decide_eq_true_2 by (apply elem_of_dom; eauto). simpl.
  by rewrite Hc, lookup_fmap, Hs; simpl; rewrite Hv, Hh, Ho.
Qed.

(** A RECORD branch that returns has chosen the header of [header_for],
    opened the file for append and written under that header. *)
Lemma body_record_inv output_folder stream record l fs l' fs' :
  body output_folder (RECORD stream record) l fs = (inr l', fs') ->
  exists header,
    header_for l fs (resolve output_folder stream) stream
      (flatten str record "" "__") = inr header /\
    open_error (resolve output_folder stream) "a" = None /\
    l' = record_locals l stream header /\
    fs' = record_written fs (locate (resolve output_folder stream)) header
            (flatten str record "" "__").
Proof.
  rewrite body_record.
  destruct (negb (bool_decide (stream ∈ dom (schemas l)))); [discriminate|].
  destruct (validators l !! stream) as [v|]; [|discriminate].
  destruct (v (VDict record)); [discriminate|].
  destruct (header_for l fs (resolve output_folder stream) stream
              (flatten str record "" "__")) as [e|header]; [discriminate|].
  destruct (open_error (resolve output_folder stream) "a"); [discriminate|].
  intros [= <- <-]. by exists header.
Qed.

(** A step that raises has written nothing. *)
Lemma body_raise_files output_folder o l fs e fs' :
  body output_folder o l fs = (inl e, fs') -> fs' = fs.
Proof.
  destruct o as [s r|v|s sch kp|s v]; try discriminate.
  rewrite body_record.
  destruct (negb (bool_decide (s ∈ dom (schemas l))));
    [by intros [= _ <-]|].
  destruct (validators l !! s) as [v|]; [|by intros [= _ <-]].
  destruct (v (VDict r)); [by intros [= _ <-]|].
  destruct (header_for l fs (resolve output_folder s) s
              (flatten str r "" "__")) as [e1|header]; [by intros [= _ <-]|].
  destruct (open_error (resolve output_folder s) "a");
    [by intros [= _ <-]|discriminate].
Qed.

Lemma body_state output_folder o l fs l' fs' :
  body output_folder o l fs = (inr l', fs') ->
  state l' = match o with
             | RECORD _ _ => VNone
             | STATE v => v
             | _ => state l
             end.
Proof.
  destruct o as [s r|v|s sch kp|s v]; intros Hb.
  - apply body_record_inv in Hb as (h & _ & _ & -> & _). reflexivity.
  - by injection Hb as <- _.
  - by injection Hb as <- _.
  - by injection Hb as <- _.
Qed.

Lemma body_schemas output_folder o l fs l' fs' :
  body output_folder o l fs = (inr l', fs') ->
  schemas l' = match o with
               | SCHEMA stream schema _ => <[stream := schema]> (schemas l)
               | _ => schemas l
               end.
Proof.
  destruct o as [s r|v|s sch kp|s v]; intros Hb.
  - apply body_record_inv in Hb as (h & _ & _ & -> & _). reflexivity.
  - by injection Hb as <- _.
  - by injection Hb as <- _.
  - by injection Hb as <- _.
Qed.

Lemma compiled_init : compiled locals_init.
Proof. unfold compiled. simpl. by rewrite fmap_empty. Qed.

Lemma body_compiled output_folder o l fs l' fs' :
  compiled l ->
  body output_folder o l fs = (inr l', fs') ->
  compiled l'.
Proof.
  unfold compiled. intros Hc Hb. destruct o as [s r|v|s sch kp|s v].
  - apply body_record_inv in Hb as (h & _ & _ & -> & _). exact Hc.
  - by injection Hb as <- _.
  - injection Hb as <- _. simpl. by rewrite fmap_insert, Hc.
  - by injection Hb as <- _.
Qed.

Lemma loop_compiled output_folder messages l fs l' fs' :
  compiled l ->
  loop output_folder messages l fs = (inr l', fs') ->
  compiled l'.
Proof.
  revert l fs. induction messages as [|[e|o] messages IH]; intros l fs Hc; simpl.
  - by injection 1 as <- _.
  - discriminate.
  - unfold bind. destruct (body output_folder o l fs) as [[e|l1] fs1] eqn:Hb;
      [discriminate|].
    apply IH. eapply body_compiled; eauto.
Qed.

(** Messages that declare nothing for [stream] leave its schema alone. *)
Lemma loop_schemas_other output_folder messages stream l fs l' fs' :
  existsb (is_schema_for stream) messages = false ->
  loop output_folder messages l fs = (inr l', fs') ->
  schemas l' !! stream = schemas l !! stream.
Proof.
  revert l fs. induction messages as [|[e|o] messages IH]; intros l fs; simpl.
  - intros _. by injection 1 as <- _.
  - discriminate.
  - intros [Ho Hrest]%orb_false_elim. unfold bind.
    destruct (body output_folder o l fs) as [[e|l1] fs1] eqn:Hb;
      [discriminate|].
    intros Hl. rewrite (IH _ _ Hrest Hl), (body_schemas _ _ _ _ _ _ Hb).
    destruct o as [s r|v|s sch kp|s v]; try reflexivity.
    simpl in Ho. apply String.eqb_neq in Ho. by rewrite lookup_insert_ne.
Qed.

(** A run that returns has met no line that does not decode, no RECORD
    without its SCHEMA and no record that does not conform. *)
Lemma loop_returns_accepted output_folder messages l fs l' fs' :
  compiled l ->
  loop output_folder messages l fs = (inr l', fs') ->
  accepted (schemas l) messages = true.
Proof.
  revert l fs. induction messages as [|[e|o] messages IH]; intros l fs Hc; simpl.
  - reflexivity.
  - discriminate.
  - unfold bind.
    destruct (body output_folder o l fs) as [[e|l1] fs1] eqn:Hb;
      [discriminate|].
    intros Hl.
    assert (Hc1 := body_compiled _ _ _ _ _ _ Hc Hb).
    assert (Ha := IH _ _ Hc1 Hl).
    rewrite (body_schemas _ _ _ _ _ _ Hb) in Ha.
    destruct o as [s r|v|s sch kp|s v]; try exact Ha.
    destruct (schemas l !! s) as [schema|] eqn:Hs.
    + destruct (Draft4Validator schema (VDict r)) eqn:Hv; [|exact Ha].
      rewrite (body_record_invalid _ _ _ _ _ _ _ Hc Hs Hv) in Hb. discriminate.
    + rewrite (body_record_missing _ _ _ _ _ Hs) in Hb. discriminate.
Qed.

(** A run that returns has decoded every line. *)
Lemma loop_decoded output_folder messages l fs l' fs' :
  loop output_folder messages l fs = (inr l', fs') ->
  exists os, messages = inr <$> os.
Proof.
  revert l fs. induction messages as [|[e|o] messages IH]; intros l fs.
  - by exists [].
  - discriminate.
  - rewrite loop_cons.
    destruct (body output_folder o l fs) as [[e|l1] fs1]; [discriminate|].
    intros [os ->]%IH. by exists (o :: os).
Qed.

(** The checkpoint variable after the loop. *)
Lemma loop_state output_folder os l fs l' fs' :
  loop output_folder (inr <$> os) l fs = (inr l', fs') ->
  state l' = match last_state os with
             | Some (v, following) =>
                 if existsb is_record following then VNone else v
             | None => if existsb is_record os then VNone else state l
             end.
Proof.
  revert l fs. induction os as [|o os IH]; intros l fs; simpl.
  - by injection 1 as <- _.
  - unfold bind.
    destruct (body output_folder o l fs) as [[e|l1] fs1] eqn:Hb;
      [discriminate|].
    intros Hl. rewrite (IH _ _ Hl). apply body_state in Hb.
    destruct (last_state os) as [[v following]|]; [reflexivity|].
    destruct o; simpl; rewrite Hb; try reflexivity.
    by destruct (existsb is_record os).
Qed.

(** With the file empty, or with a header stored for the stream, the
    header is the keys of the record at hand. *)
Lemma header_for_empty l fs filename stream flattened_record :
  file_is_empty fs (locate filename) = true ->
  header_for l fs filename stream flattened_record
  = inr (keys flattened_record).
Proof. unfold header_for. intros ->. by rewrite andb_false_r. Qed.

Lemma header_for_cached l fs filename stream flattened_record :
  is_Some (headers l !! stream) ->
  header_for l fs filename stream flattened_record
  = inr (keys flattened_record).
Proof.
  intros Hin. unfold header_for.
  rewrite bool_decide_eq_false_2; [done|].
  intros Hout. by apply Hout, elem_of_dom.
Qed.

(** With no header stored and a file that is not empty, the header is
    the first row read, or the keys when that row is empty. *)
Lemma header_for_read l fs filename stream flattened_record text first_line :
  headers l !! stream = None ->
  fs !! locate filename = Some text ->
  text <> "" ->
  open_error filename "r" = None ->
  csv_next text = inr first_line ->
  header_for l fs filename stream flattened_record
  = inr (match first_line with
         | [] => keys flattened_record
         | _ => first_line
         end).
Proof.
  intros Hh Hf Htext Ho Hn. unfold header_for, file_is_empty.
  rewrite bool_decide_eq_true_2 by (by apply not_elem_of_dom).
  rewrite Hf, Ho. destruct text as [|c text]; [done|]. simpl.
  rewrite Hn. by destruct first_line.
Qed.

Lemma header_replaced output_folder stream record l fs schema :
  compiled l ->
  schemas l !! stream = Some schema ->
  Draft4Validator schema (VDict record) = None ->
  is_Some (headers l !! stream) ->
  open_error (resolve output_folder stream) "a" = None ->
  exists l' fs',
    body output_folder (RECORD stream record) l fs = (inr l', fs') /\
    headers l' !! stream = Some (keys (flatten str record "" "__")).
Proof.
  intros Hc Hs Hv Hin Ho. eexists _, _.
  rewrite (body_record_ok _ _ _ _ fs _ _ Hc Hs Hv
             (header_for_cached _ _ _ _ _ Hin) Ho).
  split; [reflexivity|]. simpl. by rewrite lookup_insert_eq.
Qed.

Lemma body_headers output_folder o l fs l' fs' stream :
  is_record_for stream (inr o) = false ->
  body output_folder o l fs = (inr l', fs') ->
  headers l' !! stream = headers l !! stream.
Proof.
  destruct o as [s r|v|s sch kp|s v]; intros Ho Hb.
  - apply body_record_inv in Hb as (h & _ & _ & -> & _). simpl in *.
    apply String.eqb_neq in Ho. by rewrite lookup_insert_ne.
  - by injection Hb as <- _.
  - by injection Hb as <- _.
  - by injection Hb as <- _.
Qed.

(** Before the first RECORD of a stream the run holds no header for it. *)
Lemma loop_headers_other output_folder messages stream l fs l' fs' :
  existsb (is_record_for stream) messages = false ->
  loop output_folder messages l fs = (inr l', fs') ->
  headers l' !! stream = headers l !! stream.
Proof.
  revert l fs. induction messages as [|[e|o] messages IH]; intros l fs.
  - intros _. by injection 1 as <- _.
  - discriminate.
  - intros [Ho Hrest]%orb_false_elim. rewrite loop_cons.
    destruct (body output_folder o l fs) as [[e|l1] fs1] eqn:Hb;
      [discriminate|].
    intros Hl. rewrite (IH _ _ Hrest Hl). eapply body_headers; eauto.
Qed.

Lemma dict_to_list_length header flattened_record :
  length (dict_to_list str header flattened_record) = length header.
Proof. unfold dict_to_list. apply length_fmap. Qed.

Lemma dict_to_list_lookup header flattened_record i column :
  header !! i = Some column ->
  dict_to_list str header flattened_record !! i
  = Some (csv_field str (dict_get flattened_record column (VStr ""))).
Proof. intros Hi. unfold dict_to_list. by rewrite list_lookup_fmap, Hi. Qed.

Lemma dict_to_list_restrict header flattened_record :
  dict_to_list str header
    (List.filter (fun kv => bool_decide (kv.1 ∈ header)) flattened_record)
  = dict_to_list str header flattened_record.
Proof.
  unfold dict_to_list. apply list_fmap_ext. intros i column Hi. f_equal.
  assert (Hin : bool_decide (column ∈ header) = true).
  { apply bool_decide_eq_true_2. by eapply list_elem_of_lookup_2. }
  exact (dict_get_filter (fun k : string => bool_decide (k ∈ header))
           flattened_record column (VStr "") Hin).
Qed.

Lemma NoDup_flatten d parent_key sep :
  NoDup (keys (flatten str d parent_key sep)).
Proof. apply NoDup_dict. Qed.

Lemma record_written_lookup fs file header flattened_record :
  record_written fs file header flattened_record !! file
  = Some (default "" (fs !! file)
          +:+ (if file_is_empty fs file then writerow header else "")
          +:+ writerow (dict_to_list str header flattened_record)).
Proof. unfold record_written. apply lookup_insert_eq. Qed.

Lemma record_written_nonempty fs file header flattened_record :
  file_is_empty (record_written fs file header flattened_record) file = false.
Proof.
  unfold record_written. apply file_is_empty_insert.
  do 2 apply append_nonempty_r. apply writerow_nonempty.
Qed.

(** ** Appending a row *)

(** C6: whenever the RECORD branch has appended, that is, has returned:
    it wrote the header row first exactly when the file was empty
    (absent or of size zero) before, then one data row; the data row
    has, for each column of the header used, in order, the flattened
    record's value when the column is one of its keys (a string as it
    is, None as the empty string, any other value as its [str]) and the
    empty string when not; keys of the flattened record outside the
    header play no part and raise nothing. *)
Theorem append_row_semantics output_folder stream record l fs l' fs' :
  body output_folder (RECORD stream record) l fs = (inr l', fs') ->
  let file := locate (resolve output_folder stream) in
  let flattened_record := flatten str record "" "__" in
  exists header data_row,
    headers l' !! stream = Some header /\
    fs' = <[file := default "" (fs !! file)
                    +:+ (if file_is_empty fs file
                         then writerow header +:+ writerow data_row
                         else writerow data_row)]> fs /\
    (file_is_empty fs file = true <->
     fs !! file = None \/ fs !! file = Some "") /\
    length data_row = length header /\
    (forall i column,
        header !! i = Some column ->
        (column ∉ keys flattened_record -> data_row !! i = Some "") /\
        (forall v, (column, v) ∈ flattened_record ->
                   data_row !! i = Some (match v with
                                         | VNone => ""
                                         | VStr s => s
                                         | _ => str v
                                         end))) /\
    data_row
    = dict_to_list str header
        (List.filter (fun kv => bool_decide (kv.1 ∈ header)) flattened_record).
Proof.
  intros Hb file flattened_record.
  apply body_record_inv in Hb as (header & _ & _ & -> & ->).
  fold file flattened_record.
  exists header, (dict_to_list str header flattened_record).
  split; [|split; [|split; [|split; [|split]]]].
  - simpl. apply lookup_insert_eq.
  - unfold record_written. by destruct (file_is_empty fs file).
  - apply file_is_empty_spec.
  - apply dict_to_list_length.
  - intros i column Hi. rewrite (dict_to_list_lookup _ _ _ _ Hi). split.
    + intros Hout. by rewrite dict_get_absent.
    + intros v Hin. rewrite (dict_get_present _ _ v); [|apply NoDup_flatten|done].
      by destruct v.
  - by rewrite dict_to_list_restrict.
Qed.

(** ** Continuing a file *)

(** C7: when the first RECORD of a stream in a run finds its file
    present and not empty, the header it uses is the first row read
    back from the file, whatever the keys of the record; only when that
    row is empty are the flattened keys used.  No header row is written
    and the data row is laid out under the header used.  (When the file
    cannot be opened or read, the step raises and writes nothing.) *)
Theorem rerun_continuation output_folder pre fs0 l fs stream record schema
    text :
  loop output_folder pre locals_init fs0 = (inr l, fs) ->
  existsb (is_record_for stream) pre = false ->
  schemas l !! stream = Some schema ->
  Draft4Validator schema (VDict record) = None ->
  fs !! locate (resolve output_folder stream) = Some text ->
  text <> "" ->
  let filename := resolve output_folder stream in
  let flattened_record := flatten str record "" "__" in
  body output_folder (RECORD stream record) l fs
  = match open_error filename "r" with
    | Some e => (inl e, fs)
    | None =>
        match csv_next text with
        | inl e => (inl e, fs)
        | inr first_line =>
            let header := match first_line with
                          | [] => keys flattened_record
                          | _ => first_line
                          end in
            match open_error filename "a" with
            | Some e => (inl e, fs)
            | None =>
                (inr (record_locals l stream header),
                 <[locate filename :=
                     text +:+ writerow
                                (dict_to_list str header flattened_record)]>
                   fs)
            end
        end
    end.
Proof.
  intros Hl Hfirst Hs Hv Hf Htext filename flattened_record.
  assert (Hc : compiled l) by (eapply loop_compiled; eauto using compiled_init).
  assert (Hh : headers l !! stream = None).
  { rewrite (loop_headers_other _ _ _ _ _ _ _ Hfirst Hl). apply lookup_empty. }
  rewrite body_record.
  rewrite bool_decide_eq_true_2 by (apply elem_of_dom; eauto). simpl.
  rewrite Hc, lookup_fmap, Hs. simpl. rewrite Hv.
  subst filename flattened_record.
  unfold header_for, record_written, file_is_empty.
  rewrite bool_decide_eq_true_2 by (by apply not_elem_of_dom).
  rewrite Hf. destruct text as [|c text]; [done|]. simpl.
  destruct (open_error (resolve output_folder stream) "r"); [reflexivity|].
  destruct (csv_next (String c text)) as [e|[|field first_line]];
    reflexivity.
Qed.

(** ** Checkpoint *)

Lemma last_state_app os tail found :
  last_state tail = Some found -> last_state (os ++ tail) = Some found.
Proof.
  intros Htail. induction os as [|o os IH]; [exact Htail|].
  simpl. by rewrite IH.
Qed.

Lemma persist_messages_checkpoint output_folder messages fs v fs' :
  persist_messages messages output_folder fs = (inr v, fs') ->
  exists os, messages = inr <$> os /\ v = checkpoint os.
Proof.
  unfold persist_messages, bind.
  destruct (loop output_folder messages locals_init fs) as [[e|l] fs1] eqn:Hl;
    [discriminate|].
  intros [= <- <-].
  destruct (loop_decoded _ _ _ _ _ _ Hl) as [os ->].
  exists os. split; [reflexivity|].
  rewrite (loop_state _ _ _ _ _ _ Hl). unfold checkpoint.
  destruct (last_state os) as [[v following]|]; [reflexivity|].
  by destruct (existsb is_record os).
Qed.

Lemma persist_messages_ending output_folder pre tail fs v fs' found :
  persist_messages (pre ++ (inr <$> tail)) output_folder fs = (inr v, fs') ->
  last_state tail = Some found ->
  v = if existsb is_record found.2 then VNone else found.1.
Proof.
  intros (os & Hos & ->)%persist_messages_checkpoint Htail.
  symmetry in Hos. apply fmap_app_inv in Hos as (os1 & os2 & _ & Htl & ->).
  apply (inj (fmap inr)) in Htl as ->.
  unfold checkpoint. rewrite (last_state_app _ _ _ Htail). by destruct found.
Qed.

(** C2 (as amended): whenever [persist_messages] returns, what it
    returns is the value of the last STATE message that no RECORD
    message follows, and none when there is no such STATE; a STATE
    message sets the checkpoint and writes no file, and a RECORD that
    has been written leaves it at none.  So a returning run on an input
    that ends in STATE(S1), RECORD(r1), STATE(S2) returns S2, on one
    that ends in RECORD(r1), STATE(S1) returns S1, and on one that ends
    in STATE(S1), RECORD(r1) returns none. *)
Theorem checkpoint_semantics output_folder messages fs v fs' :
  persist_messages messages output_folder fs = (inr v, fs') ->
  (exists os, messages = inr <$> os /\ v = checkpoint os) /\
  (forall pre S1 stream r1 S2,
      messages = pre ++ [inr (STATE S1); inr (RECORD stream r1);
                         inr (STATE S2)] ->
      v = S2) /\
  (forall pre stream r1 S1,
      messages = pre ++ [inr (RECORD stream r1); inr (STATE S1)] ->
      v = S1) /\
  (forall pre S1 stream r1,
      messages = pre ++ [inr (STATE S1); inr (RECORD stream r1)] ->
      v = VNone) /\
  (forall S l fs1,
      exists l1,
        body output_folder (STATE S) l fs1 = (inr l1, fs1) /\ state l1 = S) /\
  (forall stream record l fs1 l1 fs2,
      body output_folder (RECORD stream record) l fs1 = (inr l1, fs2) ->
      state l1 = VNone).
Proof.
  intros Hrun. split; [by eapply persist_messages_checkpoint|].
  split; [|split; [|split; [|split]]].
  - intros pre S1 stream r1 S2 ->.
    exact (persist_messages_ending output_folder pre
             [STATE S1; RECORD stream r1; STATE S2] fs v fs' (S2, [])
             Hrun eq_refl).
  - intros pre stream r1 S1 ->.
    exact (persist_messages_ending output_folder pre
             [RECORD stream r1; STATE S1] fs v fs' (S1, []) Hrun eq_refl).
  - intros pre S1 stream r1 ->.
    exact (persist_messages_ending output_folder pre
             [STATE S1; RECORD stream r1] fs v fs' (S1, [RECORD stream r1])
             Hrun eq_refl).
  - intros S l fs1. by eexists.
  - intros stream record l fs1 l1 fs2 Hb. by apply body_state in Hb.
Qed.

(** ** Rejections *)

(** C3: a RECORD for a stream that no earlier SCHEMA declared ends the
    run with an error, and the files are as the messages before it left
    them: the RECORD branch raises before it touches any file. *)
Theorem missing_schema_rejection output_folder pre stream record post fs :
  existsb (is_schema_for stream) pre = false ->
  exists e,
    persist_messages (pre ++ inr (RECORD stream record) :: post)
      output_folder fs
    = (inl e, (loop output_folder pre locals_init fs).2) /\
    forall l,
      (loop output_folder pre locals_init fs).1 = inr l ->
      e = MissingSchema stream /\
      forall fs1,
        body output_folder (RECORD stream record) l fs1
        = (inl (MissingSchema stream), fs1).
Proof.
  intros Hpre. unfold persist_messages, bind. rewrite loop_app.
  destruct (loop output_folder pre locals_init fs) as [[e|l] fs1] eqn:Hl.
  - exists e. split; [reflexivity|]. discriminate.
  - assert (Hs : schemas l !! stream = None).
    { rewrite (loop_schemas_other _ _ _ _ _ _ _ Hpre Hl). apply lookup_empty. }
    exists (MissingSchema stream).
    rewrite loop_cons, (body_record_missing _ _ _ _ _ Hs).
    split; [reflexivity|].
    intros l0 [= <-]. split; [reflexivity|].
    intros fs2. by apply body_record_missing.
Qed.

(** C4: a RECORD whose record does not conform to the schema declared
    for its stream ends the run with the ValidationError, and the files
    are as the messages before it left them: validation comes before
    the output file is inspected, opened or written. *)
Theorem validation_rejection output_folder pre stream record post fs
    l fs1 schema :
  loop output_folder pre locals_init fs = (inr l, fs1) ->
  schemas l !! stream = Some schema ->
  Draft4Validator schema (VDict record) = Some ValidationError ->
  body output_folder (RECORD stream record) l fs1 = (inl ValidationError, fs1)
  /\ persist_messages (pre ++ inr (RECORD stream record) :: post)
       output_folder fs
     = (inl ValidationError, fs1).
Proof.
  intros Hl Hs Hv.
  assert (Hc : compiled l) by (eapply loop_compiled; eauto using compiled_init).
  assert (Hb := body_record_invalid output_folder _ _ _ fs1 _ _ Hc Hs Hv).
  split; [exact Hb|].
  unfold persist_messages, bind. by rewrite loop_app, Hl, loop_cons, Hb.
Qed.

(** ** Key properties *)

Lemma body_forget_key_properties output_folder o1 o2 l1 l2 fs :
  erase_key_properties (inr o1) = erase_key_properties (inr o2) ->
  forget_key_properties l1 = forget_key_properties l2 ->
  forget_outcome (body output_folder o1 l1 fs)
  = forget_outcome (body output_folder o2 l2 fs).
Proof.
  destruct l1 as [st1 sc1 kp1 h1 va1], l2 as [st2 sc2 kp2 h2 va2].
  unfold forget_key_properties. simpl. intros Ho [= -> -> -> ->].
  destruct o1 as [s r|v|s sch kp|s v], o2 as [s' r'|v'|s' sch' kp'|s' v'];
    try discriminate; simpl in Ho; simplify_eq; try reflexivity.
  rewrite !body_record. simpl.
  destruct (negb (bool_decide (s' ∈ dom sc2))); [reflexivity|].
  destruct (va2 !! s') as [v|]; [|reflexivity].
  destruct (v (VDict r')); [reflexivity|].
  unfold header_for. simpl.
  destruct (bool_decide (s' ∉ dom h2)
            && negb (file_is_empty fs (locate (resolve output_folder s'))));
    repeat match goal with
           | |- context [match ?x with _ => _ end] => destruct x; simpl
           end; reflexivity.
Qed.

Lemma loop_forget_key_properties output_folder messages1 :
  forall messages2 l1 l2 fs,
    erase_key_properties <$> messages1 = erase_key_properties <$> messages2 ->
    forget_key_properties l1 = forget_key_properties l2 ->
    forget_outcome (loop output_folder messages1 l1 fs)
    = forget_outcome (loop output_folder messages2 l2 fs).
Proof.
  induction messages1 as [|m1 messages1 IH];
    intros [|m2 messages2] l1 l2 fs Hm Hl; try discriminate.
  - unfold forget_outcome. simpl. by rewrite Hl.
  - injection Hm as Hm1 Hm.
    destruct m1 as [e1|o1], m2 as [e2|o2];
      try (by destruct o1); try (by destruct o2).
    + by injection Hm1 as ->.
    + rewrite !loop_cons.
      assert (Hb := body_forget_key_properties output_folder o1 o2 l1 l2 fs
                      Hm1 Hl).
      destruct (body output_folder o1 l1 fs) as [[e1|l1'] fs1],
        (body output_folder o2 l2 fs) as [[e2|l2'] fs2];
        unfold forget_outcome in Hb; simpl in Hb; try discriminate.
      * exact Hb.
      * assert (Hl' : forget_key_properties l1' = forget_key_properties l2')
          by congruence.
        assert (fs1 = fs2) as -> by congruence.
        by apply IH.
Qed.

(** C10: two inputs that are the same once the key_properties of their
    SCHEMA messages are blanked give the same run: the same files, and
    the same checkpoint returned or the same exception raised. *)
Theorem key_properties_noninterference output_folder messages1 messages2 fs :
  erase_key_properties <$> messages1 = erase_key_properties <$> messages2 ->
  persist_messages messages1 output_folder fs
  = persist_messages messages2 output_folder fs.
Proof.
  intros Hm. unfold persist_messages, bind.
  assert (Hl := loop_forget_key_properties output_folder messages1 messages2
                  locals_init locals_init fs Hm eq_refl).
  destruct (loop output_folder messages1 locals_init fs) as [[e1|l1] fs1],
    (loop output_folder messages2 locals_init fs) as [[e2|l2] fs2];
    unfold forget_outcome in Hl; simpl in Hl; try discriminate.
  - congruence.
  - assert (Hst : state (forget_key_properties l1)
                  = state (forget_key_properties l2)) by congruence.
    assert (fs1 = fs2) as -> by congruence.
    unfold ret. simpl in Hst. by rewrite Hst.
Qed.

(** ** SCHEMA *)

(** C9: a SCHEMA message replaces the schema, validator and
    key_properties of its own stream and nothing else: the headers, the
    checkpoint, the entries of the other streams and the files stay. *)
Theorem schema_frame output_folder stream schema kp l fs :
  exists l',
    body output_folder (SCHEMA stream schema kp) l fs = (inr l', fs) /\
    schemas l' !! stream = Some schema /\
    validators l' !! stream = Some (Draft4Validator schema) /\
    key_properties l' !! stream = Some kp /\
    headers l' = headers l /\
    state l' = state l /\
    forall stream',
      stream' <> stream ->
      schemas l' !! stream' = schemas l !! stream' /\
      validators l' !! stream' = validators l !! stream' /\
      key_properties l' !! stream' = key_properties l !! stream'.
Proof.
  eexists. split; [reflexivity|]. simpl.
  rewrite !lookup_insert_eq. repeat split; try reflexivity;
    by apply lookup_insert_ne.
Qed.

End Properties.

(** ** The properties on concrete runs *)

(** C1 at the input SCHEMA("s"), RECORD("s", {"a": "1"}),
    RECORD("s", {"b": "2"}) with no file to start from: the first RECORD
    establishes the header [a]; the second one replaces the stored
    header by its own keys [b] and writes its row under them, so the
    file holds the field 2 in the column headed a, where the established
    header asks for an empty field.  The same after a header read from
    the file of an earlier run: under the header [x, y] the records
    {"y": "5"} and {"y": "6"} give the rows [, 5] and then [6]. *)
Theorem header_not_stable :
  (exists l fs,
      loop_example "out"
        [inr (SCHEMA "s" any_schema (VList []));
         inr (RECORD "s" [("a", VStr "1")]);
         inr (RECORD "s" [("b", VStr "2")])]
        locals_init ∅ = (inr l, fs) /\
      fs !! "out/s--2026-11-04.csv" = Some (file_of [["a"]; ["1"]; ["2"]]) /\
      headers l !! "s" = Some ["b"] /\
      dict_to_list str_scalar ["a"]
        (flatten str_scalar [("b", VStr "2")] "" "__") = [""]) /\
  (exists l fs,
      loop_example "out"
        [inr (SCHEMA "s" any_schema (VList []));
         inr (RECORD "s" [("y", VStr "5")]);
         inr (RECORD "s" [("y", VStr "6")])]
        locals_init earlier_run = (inr l, fs) /\
      fs !! "out/s--2026-11-04.csv"
      = Some (file_of [["x"; "y"]; ["1"; "2"]; [""; "5"]; ["6"]]) /\
      headers l !! "s" = Some ["y"] /\
      dict_to_list str_scalar ["x"; "y"]
        (flatten str_scalar [("y", VStr "6")] "" "__") = [""; "6"]).
Proof.
  split; eexists _, _; (split; [reflexivity|]); by vm_compute.
Qed.

(** C2 as stated fails at the sequence STATE(1), RECORD, STATE(2) of
    the specification: with no SCHEMA before the RECORD the run raises
    and returns nothing, where the claim has it return 2. *)
Lemma checkpoint_without_schema :
  persist_messages_example
    [inr (STATE (VInt 1)); inr (RECORD "orders" [("id", VInt 1)]);
     inr (STATE (VInt 2))] "out" ∅
  = (inl (MissingSchema "orders"), ∅) /\
  checkpoint [STATE (VInt 1); RECORD "orders" [("id", VInt 1)];
              STATE (VInt 2)] = VInt 2.
Proof. split; reflexivity. Qed.

(** The three sequences of C2 on concrete runs that return, each after
    the SCHEMA of its stream. *)
Lemma checkpoint_semantics_witness :
  (exists v,
      persist_messages_example
        ([inr (SCHEMA "s" any_schema (VList []))]
           ++ [inr (STATE (VInt 1)); inr (RECORD "s" [("a", VStr "1")]);
               inr (STATE (VInt 2))]) "out" ∅
      = (inr v, files_s_a) /\ v = VInt 2) /\
  (exists v,
      persist_messages_example
        ([inr (SCHEMA "s" any_schema (VList []))]
           ++ [inr (RECORD "s" [("a", VStr "1")]); inr (STATE (VInt 1))])
        "out" ∅
      = (inr v, files_s_a) /\ v = VInt 1) /\
  (exists v,
      persist_messages_example
        ([inr (SCHEMA "s" any_schema (VList []))]
           ++ [inr (STATE (VInt 1)); inr (RECORD "s" [("a", VStr "1")])])
        "out" ∅
      = (inr v, files_s_a) /\ v = VNone).
Proof.
  split; [|split].
  - assert (Hrun : persist_messages_example
                     ([inr (SCHEMA "s" any_schema (VList []))]
                        ++ [inr (STATE (VInt 1));
                            inr (RECORD "s" [("a", VStr "1")]);
                            inr (STATE (VInt 2))]) "out" ∅
                   = (inr (VInt 2), files_s_a)) by reflexivity.
    exists (VInt 2). split; [exact Hrun|].
    exact (proj1 (proj2 (checkpoint_semantics str_scalar
             Draft4Validator_example run_date locate_plain open_freely
             csv_record_plain csv_next_plain "out" _ ∅ _ _ Hrun))
             _ _ _ _ _ eq_refl).
  - assert (Hrun : persist_messages_example
                     ([inr (SCHEMA "s" any_schema (VList []))]
                        ++ [inr (RECORD "s" [("a", VStr "1")]);
                            inr (STATE (VInt 1))]) "out" ∅
                   = (inr (VInt 1), files_s_a)) by reflexivity.
    exists (VInt 1). split; [exact Hrun|].
    exact (proj1 (proj2 (proj2 (checkpoint_semantics str_scalar
             Draft4Validator_example run_date locate_plain open_freely
             csv_record_plain csv_next_plain "out" _ ∅ _ _ Hrun)))
             _ _ _ _ eq_refl).
  - assert (Hrun : persist_messages_example
                     ([inr (SCHEMA "s" any_schema (VList []))]
                        ++ [inr (STATE (VInt 1));
                            inr (RECORD "s" [("a", VStr "1")])]) "out" ∅
                   = (inr VNone, files_s_a)) by reflexivity.
    exists VNone. split; [exact Hrun|].
    exact (proj1 (proj2 (proj2 (proj2 (checkpoint_semantics str_scalar
             Draft4Validator_example run_date locate_plain open_freely
             csv_record_plain csv_next_plain "out" _ ∅ _ _ Hrun))))
             _ _ _ _ eq_refl).
Defined.

(** A RECORD for ["orders"] after a SCHEMA and a RECORD of stream ["s"]
    only: the run raises and the file of ["s"] is all there is. *)
Lemma missing_schema_rejection_witness :
  existsb (is_schema_for "orders")
    [inr (SCHEMA "s" any_schema (VList []));
     inr (RECORD "s" [("a", VStr "1")])] = false /\
  exists e,
    persist_messages_example
      ([inr (SCHEMA "s" any_schema (VList []));
        inr (RECORD "s" [("a", VStr "1")])]
         ++ inr (RECORD "orders" [("id", VInt 1)]) :: [inr (STATE (VInt 7))])
      "out" ∅
    = (inl e, files_s_a) /\
    e = MissingSchema "orders".
Proof.
  split; [reflexivity|].
  destruct (missing_schema_rejection str_scalar Draft4Validator_example
              run_date locate_plain open_freely csv_record_plain
              csv_next_plain "out"
              [inr (SCHEMA "s" any_schema (VList []));
               inr (RECORD "s" [("a", VStr "1")])]
              "orders" [("id", VInt 1)] [inr (STATE (VInt 7))] ∅ eq_refl)
    as (e & Hrun & He).
  exists e. split; [exact Hrun|]. exact (proj1 (He _ eq_refl)).
Defined.

(** A string under ["id"] where the schema wants an integer: the run
    raises and no file has been made. *)
Lemma validation_rejection_witness :
  loop_example "out"
    [inr (SCHEMA "orders" orders_schema (VList [VStr "id"]))] locals_init ∅
  = (inr locals_orders, ∅) /\
  Draft4Validator_example orders_schema (VDict [("id", VStr "seven")])
  = Some ValidationError /\
  persist_messages_example
    ([inr (SCHEMA "orders" orders_schema (VList [VStr "id"]))]
       ++ inr (RECORD "orders" [("id", VStr "seven")]) :: [])
    "out" ∅
  = (inl ValidationError, ∅).
Proof.
  split; [reflexivity|]. split; [reflexivity|].
  apply (validation_rejection str_scalar Draft4Validator_example run_date
           locate_plain open_freely csv_record_plain csv_next_plain
           "out" [inr (SCHEMA "orders" orders_schema (VList [VStr "id"]))]
           "orders" [("id", VStr "seven")] [] ∅ locals_orders ∅
           orders_schema);
    reflexivity.
Defined.

(** C5 at the input SCHEMA("x"), SCHEMA("/out/x"), RECORD("x", {"a":
    "1"}), RECORD("/out/x", {"a": "2"}) with the output folder [/out]
    and no file to start from: each record is preceded by its SCHEMA and
    validates, the run returns, and the two streams are given the same
    path, so that the file of stream ["x"] ends with one header row and
    two data rows, though the stream has one RECORD. *)
Theorem row_count_shared_file :
  let messages :=
    [inr (SCHEMA "x" any_schema (VList []));
     inr (SCHEMA "/out/x" any_schema (VList []));
     inr (RECORD "x" [("a", VStr "1")]);
     inr (RECORD "/out/x" [("a", VStr "2")])] in
  accepted Draft4Validator_example ∅ messages = true /\
  resolve run_date "/out" "x" = "/out/x--2026-11-04.csv" /\
  resolve run_date "/out" "/out/x" = "/out/x--2026-11-04.csv" /\
  records_for "x" messages = 1 /\
  records_for "/out/x" messages = 1 /\
  exists fs',
    persist_messages_example messages "/out" ∅ = (inr VNone, fs') /\
    fs' !! "/out/x--2026-11-04.csv" = Some (file_of [["a"]; ["1"]; ["2"]]).
Proof.
  repeat (split; [reflexivity|]).
  eexists. split; [reflexivity|]. by vm_compute.
Qed.

(** Two appends of C6: the record {"y": "5", "z": "6"} to the file of
    an earlier run with the header [x, y], where no header row is
    written, x is empty and z is dropped; and the record {"a": "1"} to a
    file that is not there, where its keys are written first. *)
Lemma append_row_semantics_witness :
  (exists header data_row,
      body_example "out" (RECORD "s" [("y", VStr "5"); ("z", VStr "6")])
        locals_s earlier_run
      = (inr (record_locals locals_s "s" header),
         <["out/s--2026-11-04.csv" :=
             file_of [["x"; "y"]; ["1"; "2"]; data_row]]> earlier_run) /\
      header = ["x"; "y"] /\ data_row = [""; "5"]) /\
  (exists header data_row,
      body_example "out" (RECORD "s" [("a", VStr "1")]) locals_s ∅
      = (inr (record_locals locals_s "s" header),
         <["out/s--2026-11-04.csv" := file_of [header; data_row]]> ∅) /\
      header = ["a"] /\ data_row = ["1"]).
Proof.
  split.
  - assert (Hb : body_example "out"
                   (RECORD "s" [("y", VStr "5"); ("z", VStr "6")])
                   locals_s earlier_run
                 = (inr (record_locals locals_s "s" ["x"; "y"]),
                    <["out/s--2026-11-04.csv" :=
                        file_of [["x"; "y"]; ["1"; "2"]; [""; "5"]]]>
                      earlier_run)) by reflexivity.
    destruct (append_row_semantics str_scalar Draft4Validator_example
                run_date locate_plain open_freely csv_record_plain
                csv_next_plain _ _ _ _ _ _ _ Hb)
      as (header & data_row & Hh & _ & _ & _ & _ & Hrow).
    injection Hh as <-. simpl in Hrow. subst data_row.
    exists ["x"; "y"], [""; "5"]. split; [exact Hb|]. by split.
  - assert (Hb : body_example "out" (RECORD "s" [("a", VStr "1")])
                   locals_s ∅
                 = (inr (record_locals locals_s "s" ["a"]),
                    <["out/s--2026-11-04.csv" := file_of [["a"]; ["1"]]]> ∅))
      by reflexivity.
    destruct (append_row_semantics str_scalar Draft4Validator_example
                run_date locate_plain open_freely csv_record_plain
                csv_next_plain _ _ _ _ _ _ _ Hb)
      as (header & data_row & Hh & _ & _ & _ & _ & Hrow).
    injection Hh as <-. simpl in Hrow. subst data_row.
    exists ["a"], ["1"]. split; [exact Hb|]. by split.
Defined.

(** The record {"y": "5", "z": "6"} under the header [x, y] of the
    earlier run: x is empty, z is dropped. *)
Lemma rerun_continuation_witness :
  loop_example "out"
    [inr (SCHEMA "s" any_schema (VList []))] locals_init earlier_run
  = (inr locals_s, earlier_run) /\
  existsb (is_record_for "s") [inr (SCHEMA "s" any_schema (VList []))]
  = false /\
  earlier_run !! locate_plain (resolve run_date "out" "s")
  = Some (file_of [["x"; "y"]; ["1"; "2"]]) /\
  body_example "out" (RECORD "s" [("y", VStr "5"); ("z", VStr "6")])
    locals_s earlier_run
  = (inr (record_locals locals_s "s" ["x"; "y"]),
     <["out/s--2026-11-04.csv" :=
         file_of [["x"; "y"]; ["1"; "2"]; [""; "5"]]]> earlier_run).
Proof.
  split; [reflexivity|]. split; [reflexivity|]. split; [reflexivity|].
  refine (rerun_continuation str_scalar Draft4Validator_example run_date
            locate_plain open_freely csv_record_plain csv_next_plain
            "out" [inr (SCHEMA "s" any_schema (VList []))] earlier_run
            locals_s earlier_run "s" [("y", VStr "5"); ("z", VStr "6")]
            any_schema (file_of [["x"; "y"]; ["1"; "2"]])
            eq_refl eq_refl eq_refl eq_refl eq_refl _).
  discriminate.
Defined.

(** The same run with key_properties ["id"] and []. *)
Lemma key_properties_noninterference_witness :
  persist_messages_example
    [inr (SCHEMA "s" any_schema (VList [VStr "id"]));
     inr (RECORD "s" [("a", VStr "1")]); inr (STATE (VInt 3))] "out" ∅
  = persist_messages_example
      [inr (SCHEMA "s" any_schema (VList []));
       inr (RECORD "s" [("a", VStr "1")]); inr (STATE (VInt 3))] "out" ∅.
Proof.
  apply key_properties_noninterference. reflexivity.
Defined.
(** ** More on the flattener *)

Section FlattenMore.

Variable str : value -> string.

Local Abbreviation flatten := (flatten str).
Local Abbreviation flatten_entry := (flatten_entry str).

Lemma elem_of_dict_set {A} (d : list (string * A)) k v x :
  x ∈ dict_set d k v -> x = (k, v) \/ x ∈ d.
Proof.
  induction d as [|[k' v'] d IH]; csimpl.
  - intros ->%list_elem_of_singleton. by left.
  - destruct (String.eqb_spec k k') as [->|Hne].
    + intros [->|Hin]%elem_of_cons; [by left|]. right. by right.
    + intros [->|Hin]%elem_of_cons; [right; by left|].
      destruct (IH Hin) as [->|Hd]; [by left|]. right. by right.
Qed.

Lemma elem_of_fold_dict_set {A} (items d : list (string * A)) x :
  x ∈ fold_left (fun d kv => dict_set d kv.1 kv.2) items d ->
  x ∈ d \/ x ∈ items.
Proof.
  revert d. induction items as [|[k v] items IH]; intros d; simpl.
  - by left.
  - intros [Hin|Hin]%IH.
    + apply elem_of_dict_set in Hin as [->|Hin]; [right; by left|by left].
    + right. by right.
Qed.

(** Every entry of a dictionary is one of the items it was built from. *)
Lemma elem_of_dict {A} (items : list (string * A)) x :
  x ∈ dict items -> x ∈ items.
Proof.
  intros [Hin|Hin]%elem_of_fold_dict_set; [|done].
  by apply elem_of_nil in Hin.
Qed.

Lemma flatten_entry_scalars sep key v :
  Forall (fun kv => is_scalar kv.2 = true) (flatten_entry sep key v).
Proof.
  revert key. induction v as [| | | | |l _|d IH] using value_nested_ind;
    intros key; try (by repeat constructor).
  rewrite flatten_entry_dict. unfold flatten, flatten_items.
  apply Forall_forall. intros x Hx%elem_of_dict.
  apply list_elem_of_In, in_flat_map in Hx as ([k v] & Hkv & Hx).
  apply list_elem_of_In in Hkv, Hx.
  rewrite Forall_forall in IH. specialize (IH _ Hkv (new_key key sep k)).
  rewrite Forall_forall in IH. by apply IH.
Qed.

(** X3: every value of a flattened record is a scalar: the nested
    mappings are gone and the lists have become strings. *)
Theorem flatten_scalars d parent_key sep :
  Forall (fun kv => is_scalar kv.2 = true) (flatten d parent_key sep).
Proof.
  rewrite <- flatten_entry_dict. apply flatten_entry_scalars.
Qed.

Lemma flatten_items_flat d sep :
  Forall (fun kv => is_mapping kv.2 = false) d ->
  flatten_items str d "" sep = (fun kv => (kv.1, stringified str kv.2)) <$> d.
Proof.
  unfold flatten_items.
  induction 1 as [|[k v] d Hv Hflat IH]; csimpl; [done|].
  by rewrite IH, (flatten_entry_leaf _ _ _ _ Hv).
Qed.

(** X4: flattening what has been flattened changes nothing. *)
Theorem flatten_idempotent d parent_key sep :
  flatten (flatten d parent_key sep) "" sep = flatten d parent_key sep.
Proof.
  assert (Hs : Forall (fun kv => is_scalar kv.2 = true)
                 (flatten d parent_key sep)).
  { rewrite <- flatten_entry_dict. apply flatten_entry_scalars. }
  assert (Hd : NoDup (keys (flatten d parent_key sep))) by apply NoDup_dict.
  revert Hs Hd. generalize (flatten d parent_key sep). intros flat Hs Hd.
  unfold flatten. rewrite flatten_items_flat.
  - assert (Hid : (fun kv => (kv.1, stringified str kv.2)) <$> flat = flat).
    { clear Hd. induction Hs as [|[k v] flat Hv _ IH]; csimpl; [done|].
      rewrite IH. by destruct v. }
    rewrite Hid. by apply dict_NoDup_id.
  - eapply Forall_impl; [exact Hs|]. intros [k v]. simpl. by destruct v.
Qed.

(** X5: an entry that holds an empty mapping leaves no trace: its key
    is in no key of the result. *)
Theorem flatten_empty_mapping d1 k d2 parent_key sep :
  flatten (d1 ++ (k, VDict []) :: d2) parent_key sep
  = flatten (d1 ++ d2) parent_key sep.
Proof.
  unfold flatten, flatten_items.
  by rewrite !flat_map_app.
Qed.

End FlattenMore.

(** ** More on the run *)

Section RunMore.

Variable str : value -> string.
Variable Draft4Validator : value -> validator.
Variable date : string.
Variable locate : string -> string.
Variable open_error : string -> string -> option exn.
Variable csv_record : row -> string.
Variable csv_next : string -> exn + row.

Local Abbreviation body :=
  (body str Draft4Validator date locate open_error csv_record csv_next).
Local Abbreviation loop :=
  (loop str Draft4Validator date locate open_error csv_record csv_next).
Local Abbreviation persist_messages :=
  (persist_messages str Draft4Validator date locate open_error csv_record
     csv_next).
Local Abbreviation resolve := (resolve date).
Local Abbreviation accepted := (accepted Draft4Validator).
Local Abbreviation compiled := (compiled Draft4Validator).
Local Abbreviation header_for := (header_for locate open_error csv_next).
Local Abbreviation record_written := (record_written str csv_record).
Local Abbreviation writerow := (writerow csv_record).
Local Abbreviation writerows := (writerows csv_record).
Local Abbreviation records_to := (records_to date locate).
Local Abbreviation shares_file := (shares_file date locate).
Local Abbreviation own_row := (own_row str).
Local Abbreviation loop_app :=
  (loop_app str Draft4Validator date locate open_error csv_record csv_next).
Local Abbreviation loop_cons :=
  (loop_cons str Draft4Validator date locate open_error csv_record csv_next).
Local Abbreviation body_record_inv :=
  (body_record_inv str Draft4Validator date locate open_error csv_record
     csv_next).
Local Abbreviation body_raise_files :=
  (body_raise_files str Draft4Validator date locate open_error csv_record
     csv_next).

(** X6: the run returns only on inputs in which every line decodes and
    every RECORD comes after a SCHEMA for its stream and conforms to the
    latest one: no record that fails its validator, no RECORD without a
    SCHEMA and no line that does not decode is ever passed over. *)
Theorem run_returns_only_if_accepted output_folder messages fs v fs' :
  persist_messages messages output_folder fs = (inr v, fs') ->
  accepted ∅ messages = true.
Proof.
  unfold persist_messages, bind.
  destruct (loop output_folder messages locals_init fs) as [[e|l] fs1] eqn:Hl;
    [discriminate|].
  intros _.
  apply (loop_returns_accepted str Draft4Validator date locate open_error
           csv_record csv_next _ _ _ _ _ _ (compiled_init Draft4Validator) Hl).
Qed.

(** X7: once a message has raised, nothing that follows it in the input
    is processed: the run ends with the same exception and the same
    files whatever comes after. *)
Theorem exception_stops_run output_folder messages post fs e fs' :
  persist_messages messages output_folder fs = (inl e, fs') ->
  persist_messages (messages ++ post) output_folder fs = (inl e, fs').
Proof.
  unfold persist_messages, bind. rewrite loop_app.
  destruct (loop output_folder messages locals_init fs) as [[e1|l] fs1];
    [done|discriminate].
Qed.

(** X8: a line that does not decode ends the run with the exception of
    the parser; the rows written for the lines before it stay. *)
Theorem decode_failure output_folder pre e post fs l fs1 :
  loop output_folder pre locals_init fs = (inr l, fs1) ->
  persist_messages (pre ++ inl e :: post) output_folder fs = (inl e, fs1).
Proof.
  intros Hl. unfold persist_messages, bind. by rewrite loop_app, Hl.
Qed.

(** X9: an ACTIVATE_VERSION message, the one type the parser yields
    besides RECORD, STATE and SCHEMA, is passed over: the run is the one
    of the input without it. *)
Theorem activate_version_skipped output_folder pre stream version post fs :
  persist_messages (pre ++ inr (ACTIVATE_VERSION stream version) :: post)
    output_folder fs
  = persist_messages (pre ++ post) output_folder fs.
Proof.
  unfold persist_messages, bind. rewrite !loop_app.
  by destruct (loop output_folder pre locals_init fs) as [[e|l] fs1].
Qed.

Lemma body_forget_state output_folder o l1 l2 fs :
  is_state (inr o) = false ->
  forget_state l1 = forget_state l2 ->
  forget_state_outcome (body output_folder o l1 fs)
  = forget_state_outcome (body output_folder o l2 fs).
Proof.
  destruct l1 as [st1 sc1 kp1 h1 va1], l2 as [st2 sc2 kp2 h2 va2].
  unfold forget_state. simpl. intros Ho [= -> -> -> ->].
  destruct o as [s r|v|s sch kp|s v]; try discriminate; reflexivity.
Qed.

Lemma loop_forget_state output_folder messages :
  forall l1 l2 fs,
    forget_state l1 = forget_state l2 ->
    forget_state_outcome (loop output_folder messages l1 fs)
    = forget_state_outcome
        (loop output_folder (List.filter (fun m => negb (is_state m)) messages)
           l2 fs).
Proof.
  induction messages as [|[e|o] messages IH]; intros l1 l2 fs Hl.
  - unfold forget_state_outcome. simpl. by rewrite Hl.
  - reflexivity.
  - destruct (is_state (inr o)) eqn:Ho.
    + destruct o; try discriminate. simpl. unfold bind, ret at 1.
      apply IH. exact Hl.
    + cbn [List.filter]. rewrite Ho. cbn [negb]. rewrite !loop_cons.
      assert (Hb := body_forget_state output_folder o l1 l2 fs Ho Hl).
      destruct (body output_folder o l1 fs) as [[e1|l1'] fs1],
        (body output_folder o l2 fs) as [[e2|l2'] fs2];
        unfold forget_state_outcome in Hb; simpl in Hb; try discriminate.
      * exact Hb.
      * assert (Hl' : forget_state l1' = forget_state l2') by congruence.
        assert (fs1 = fs2) as -> by congruence.
        by apply IH.
Qed.

(** X10: STATE messages have no part in what is written or raised: the
    run of the input without its STATE messages leaves the same files
    and raises the same exception, if any. *)
Theorem state_messages_write_nothing output_folder messages fs :
  let without := List.filter (fun m => negb (is_state m)) messages in
  (persist_messages messages output_folder fs).2
  = (persist_messages without output_folder fs).2 /\
  raised (persist_messages messages output_folder fs)
  = raised (persist_messages without output_folder fs).
Proof.
  intros without. unfold persist_messages, bind.
  assert (Hl := loop_forget_state output_folder messages locals_init
                  locals_init fs eq_refl).
  fold without in Hl.
  destruct (loop output_folder messages locals_init fs) as [[e1|l1] fs1],
    (loop output_folder without locals_init fs) as [[e2|l2] fs2];
    unfold forget_state_outcome in Hl; simpl in Hl; try discriminate;
    unfold raised; simpl; split; congruence.
Qed.

(** What a step makes of one file: it stays, or the text of the step is
    put after the text it had. *)
Lemma body_file output_folder o l fs r fs' file :
  body output_folder o l fs = (r, fs') ->
  fs' !! file = fs !! file \/
  exists stream record added,
    o = RECORD stream record /\
    locate (resolve output_folder stream) = file /\
    fs' !! file = Some (default "" (fs !! file) +:+ added).
Proof.
  destruct r as [e|l'].
  - intros ->%body_raise_files. by left.
  - destruct o as [s rec|v|s sch kp|s v];
      try (intros [= _ <-]; by left).
    intros (header & _ & _ & _ & ->)%body_record_inv.
    destruct (decide (locate (resolve output_folder s) = file)) as [<-|Hne].
    + right. eexists _, _, _. split; [reflexivity|]. split; [reflexivity|].
      apply record_written_lookup.
    + left. unfold record_written.
      by rewrite lookup_insert_ne.
Qed.

Lemma loop_untouched output_folder messages l fs file :
  records_to output_folder file messages = [] ->
  (loop output_folder messages l fs).2 !! file = fs !! file.
Proof.
  revert l fs. induction messages as [|[e|o] messages IH]; intros l fs Hr.
  - reflexivity.
  - reflexivity.
  - rewrite loop_cons.
    destruct (body output_folder o l fs) as [[e|l1] fs1] eqn:Hb.
    + apply body_raise_files in Hb as ->. reflexivity.
    + assert (Hrest : records_to output_folder file messages = []
                      /\ fs1 !! file = fs !! file).
      { destruct (body_file _ _ _ _ _ _ file Hb)
          as [Hsame|(s & rec & added & -> & Hres & _)].
        - split; [|exact Hsame]. destruct o as [s rec|v|s sch kp|s v];
            try exact Hr. simpl in Hr.
          by destruct (locate (resolve output_folder s) =? file)%string.
        - simpl in Hr. rewrite Hres, String.eqb_refl in Hr. discriminate. }
      destruct Hrest as [Hrest <-]. by apply IH.
Qed.

(** X11: a file that the path of no RECORD of the input leads to is
    left as it was, present or absent, whether the run returns or
    raises. *)
Theorem other_files_untouched output_folder messages fs file :
  records_to output_folder file messages = [] ->
  (persist_messages messages output_folder fs).2 !! file = fs !! file.
Proof.
  intros Hr. unfold persist_messages, bind.
  assert (H := loop_untouched output_folder messages locals_init fs file Hr).
  by destruct (loop output_folder messages locals_init fs) as [[e|l] fs1].
Qed.

Lemma loop_append_only output_folder messages l fs file :
  (exists added,
     default "" ((loop output_folder messages l fs).2 !! file)
     = default "" (fs !! file) +:+ added)
  /\ (is_Some (fs !! file) ->
      is_Some ((loop output_folder messages l fs).2 !! file)).
Proof.
  revert l fs. induction messages as [|[e|o] messages IH]; intros l fs.
  - split; [|done]. exists "". by rewrite append_nil_r.
  - split; [|done]. exists "". by rewrite append_nil_r.
  - rewrite loop_cons.
    destruct (body output_folder o l fs) as [[e|l1] fs1] eqn:Hb.
    + apply body_raise_files in Hb as ->. split; [|done].
      exists "". by rewrite append_nil_r.
    + destruct (IH l1 fs1) as [[added2 Hpre] Hsome].
      destruct (body_file _ _ _ _ _ _ file Hb)
        as [Hsame|(s & rec & added & _ & _ & Hadd)].
      * rewrite <- Hsame. split; [by exists added2|exact Hsome].
      * split; [|intros _; apply Hsome; by rewrite Hadd].
        exists (added +:+ added2). rewrite Hpre, Hadd. simpl.
        apply append_assoc.
Qed.

(** X12: the run only ever appends: whatever the input, and whether the
    run returns or raises, every file that was there is still there and
    its text begins with the text it had. *)
Theorem append_only output_folder messages fs file :
  (exists added,
     default "" ((persist_messages messages output_folder fs).2 !! file)
     = default "" (fs !! file) +:+ added)
  /\ (is_Some (fs !! file) ->
      is_Some ((persist_messages messages output_folder fs).2 !! file)).
Proof.
  unfold persist_messages, bind.
  assert (H := loop_append_only output_folder messages locals_init fs file).
  by destruct (loop output_folder messages locals_init fs) as [[e|l] fs1].
Qed.

Lemma dict_to_list_own_keys (flattened_record : pydict) :
  NoDup (keys flattened_record) ->
  dict_to_list str (keys flattened_record) flattened_record
  = csv_field str <$> flattened_record.*2.
Proof.
  intros Hd. unfold dict_to_list, keys. rewrite <- !list_fmap_compose.
  apply list_fmap_ext. intros i [k v] Hi. simpl. f_equal.
  apply dict_get_present; [exact Hd|]. by eapply list_elem_of_lookup_2.
Qed.

Lemma dict_to_list_flatten record :
  dict_to_list str (keys (flatten str record "" "__"))
    (flatten str record "" "__")
  = own_row record.
Proof. apply dict_to_list_own_keys, NoDup_dict. Qed.

Lemma loop_headers_seen output_folder messages stream l fs l' fs' :
  loop output_folder messages l fs = (inr l', fs') ->
  is_Some (headers l !! stream)
  \/ existsb (is_record_for stream) messages = true ->
  is_Some (headers l' !! stream).
Proof.
  revert l fs. induction messages as [|[e|o] messages IH]; intros l fs.
  - intros [= <- _] [H|H]; [exact H|discriminate].
  - discriminate.
  - rewrite loop_cons.
    destruct (body output_folder o l fs) as [[e|l1] fs1] eqn:Hb;
      [discriminate|].
    intros Hl Hseen. apply (IH _ _ Hl).
    destruct (is_record_for stream (inr o)) eqn:Ho.
    + left. destruct o as [s r|v|s sch kp|s v]; try discriminate.
      simpl in Ho. apply String.eqb_eq in Ho as <-.
      apply body_record_inv in Hb as (h & _ & _ & -> & _). simpl.
      rewrite lookup_insert_eq. by eexists.
    + rewrite (body_headers str Draft4Validator date locate open_error
                 csv_record csv_next _ _ _ _ _ _ _ Ho Hb).
      destruct Hseen as [H|H]; [by left|right].
      cbn [existsb] in H. by rewrite Ho in H.
Qed.

(** A run that has written a RECORD of a stream has opened the file of
    the stream for appending. *)
Lemma loop_opened output_folder messages stream l fs l' fs' :
  loop output_folder messages l fs = (inr l', fs') ->
  existsb (is_record_for stream) messages = true ->
  open_error (resolve output_folder stream) "a" = None.
Proof.
  revert l fs. induction messages as [|[e|o] messages IH]; intros l fs.
  - discriminate 2.
  - discriminate.
  - rewrite loop_cons.
    destruct (body output_folder o l fs) as [[e|l1] fs1] eqn:Hb;
      [discriminate|].
    intros Hl Hseen. cbn [existsb] in Hseen.
    destruct (is_record_for stream (inr o)) eqn:Ho.
    + destruct o as [s r|v|s sch kp|s v]; try discriminate.
      simpl in Ho. apply String.eqb_eq in Ho as <-.
      by apply body_record_inv in Hb as (h & _ & Hopen & _).
    + by apply (IH _ _ Hl).
Qed.

Lemma records_to_seen output_folder messages stream :
  existsb (is_record_for stream) messages = true ->
  records_to output_folder (locate (resolve output_folder stream)) messages
  <> [].
Proof.
  induction messages as [|[e|[s r|v|s sch kp|s v]] messages IH]; simpl;
    try done.
  destruct (String.eqb_spec stream s) as [<-|Hne]; simpl.
  - by rewrite String.eqb_refl.
  - intros H. by destruct (locate (resolve output_folder s) =?
                           locate (resolve output_folder stream))%string;
      [|apply IH].
Qed.

Lemma loop_stays_nonempty output_folder messages l fs file :
  file_is_empty fs file = false ->
  file_is_empty (loop output_folder messages l fs).2 file = false.
Proof.
  intros Hne.
  destruct (loop_append_only output_folder messages l fs file)
    as [[added Hpre] Hsome].
  unfold file_is_empty in *.
  destruct (fs !! file) as [[|c text]|] eqn:Hf; try discriminate.
  destruct Hsome as [text' Hf']; [by eexists|].
  rewrite Hf' in Hpre |- *. simpl in Hpre. by rewrite Hpre.
Qed.

Lemma loop_nonempty output_folder messages l fs l' fs' file :
  loop output_folder messages l fs = (inr l', fs') ->
  records_to output_folder file messages <> [] ->
  file_is_empty fs' file = false.
Proof.
  revert l fs. induction messages as [|[e|o] messages IH]; intros l fs.
  - done.
  - discriminate.
  - rewrite loop_cons.
    destruct (body output_folder o l fs) as [[e|l1] fs1] eqn:Hb;
      [discriminate|].
    intros Hl Hr.
    destruct o as [s r|v|s sch kp|s v]; try (by apply (IH _ _ Hl)).
    simpl in Hr.
    destruct (String.eqb_spec (locate (resolve output_folder s)) file)
      as [Heq|Hne]; [|by apply (IH _ _ Hl)].
    apply body_record_inv in Hb as (h & _ & _ & _ & ->).
    assert (Hfs' : fs' = (loop output_folder messages l1
                            (record_written fs
                               (locate (resolve output_folder s)) h
                               (flatten str r "" "__"))).2)
      by (by rewrite Hl).
    rewrite Hfs'. apply loop_stays_nonempty. rewrite Heq.
    apply record_written_nonempty.
Qed.

(** X13: from its second RECORD in a run on, a stream has its row laid
    out under the keys of the record at hand and not under the header
    of the file: the row written is the record's own fields in its own
    key order, no header row is written, and the header stored is
    replaced by these keys. *)
Theorem later_record_own_keys output_folder pre fs0 l fs stream record schema :
  loop output_folder pre locals_init fs0 = (inr l, fs) ->
  existsb (is_record_for stream) pre = true ->
  schemas l !! stream = Some schema ->
  Draft4Validator schema (VDict record) = None ->
  exists l',
    body output_folder (RECORD stream record) l fs
    = (inr l',
       <[locate (resolve output_folder stream) :=
           default "" (fs !! locate (resolve output_folder stream))
           +:+ writerow (own_row record)]> fs) /\
    headers l' !! stream = Some (keys (flatten str record "" "__")).
Proof.
  intros Hl Hseen Hs Hv.
  assert (Hc : compiled l).
  { eapply loop_compiled; [|exact Hl]. apply compiled_init. }
  assert (Hh : is_Some (headers l !! stream)).
  { eapply loop_headers_seen; [exact Hl|by right]. }
  assert (Hne : file_is_empty fs (locate (resolve output_folder stream))
                = false).
  { eapply loop_nonempty; [exact Hl|]. by apply records_to_seen. }
  assert (Hopen := loop_opened _ _ _ _ _ _ _ Hl Hseen).
  eexists.
  rewrite (body_record_ok str Draft4Validator date locate open_error
             csv_record csv_next _ _ _ _ fs _ _ Hc Hs Hv
             (header_for_cached locate open_error csv_next _ _ _ _ _ Hh)
             Hopen).
  unfold record_written. rewrite Hne, dict_to_list_flatten. split.
  - reflexivity.
  - simpl. apply lookup_insert_eq.
Qed.

Lemma loop_own_rows output_folder stream messages :
  let file := locate (resolve output_folder stream) in
  existsb (shares_file output_folder stream) messages = false ->
  forall l fs l' fs',
    loop output_folder messages l fs = (inr l', fs') ->
    file_is_empty fs file = true \/ is_Some (headers l !! stream) ->
    fs' !! file
    = match records_to output_folder file messages with
      | [] => fs !! file
      | (first :: _) as records =>
          Some (default "" (fs !! file)
                +:+ (if file_is_empty fs file
                     then writerow (keys (flatten str first "" "__"))
                     else "")
                +:+ writerows (own_row <$> records))
      end.
Proof.
  intros file.
  induction messages as [|[e|o] messages IH]; intros Hshare l fs l' fs'.
  - by intros [= _ <-].
  - discriminate.
  - rewrite loop_cons.
    destruct (body output_folder o l fs) as [[e|l1] fs1] eqn:Hb;
      [discriminate|].
    cbn [existsb] in Hshare. apply orb_false_elim in Hshare as [Ho Hshare].
    intros Hl Hinv. specialize (IH Hshare l1 fs1 l' fs' Hl).
    destruct o as [s r|v|s sch kp|s v];
      try (injection Hb as <- <-; exact (IH Hinv)).
    apply body_record_inv in Hb as (h & Hh & _ & -> & ->). simpl.
    fold file.
    destruct (String.eqb_spec (locate (resolve output_folder s)) file)
      as [Heq|Hne].
    + assert (s = stream) as ->.
      { unfold shares_file in Ho. fold file in Ho.
        rewrite Heq, String.eqb_refl in Ho. simpl in Ho.
        destruct (String.eqb_spec s stream); [done|discriminate]. }
      fold file in IH |- *.
      set (flat := flatten str r "" "__") in *.
      assert (h = keys flat) as ->.
      { destruct Hinv as [He|Hc];
          [rewrite header_for_empty in Hh by exact He
          |rewrite header_for_cached in Hh by exact Hc]; congruence. }
      assert (Hrow : dict_to_list str (keys flat) flat = own_row r)
        by apply dict_to_list_flatten.
      assert (Hlook : record_written fs file (keys flat) flat !! file
                      = Some (default "" (fs !! file)
                              +:+ (if file_is_empty fs file
                                   then writerow (keys flat) else "")
                              +:+ writerow (own_row r))).
      { by rewrite record_written_lookup, Hrow. }
      assert (Hfull : file_is_empty
                        (record_written fs file (keys flat) flat) file
                      = false) by apply record_written_nonempty.
      rewrite IH by (right; simpl; rewrite lookup_insert_eq; by eexists).
      rewrite Hfull, Hlook. simpl.
      destruct (records_to output_folder file messages)
        as [|next rest].
      * unfold writerows. simpl. by rewrite append_nil_r.
      * unfold writerows. simpl. f_equal. by rewrite !append_assoc.
    + assert (Hsame : record_written fs (locate (resolve output_folder s)) h
                        (flatten str r "" "__") !! file
                      = fs !! file)
        by (unfold record_written; by rewrite lookup_insert_ne).
      assert (Hs : s <> stream) by (intros ->; by apply Hne).
      unfold file_is_empty in IH. rewrite Hsame in IH. apply IH.
      destruct Hinv as [He|Hc]; [by left|right].
      simpl. by rewrite lookup_insert_ne.
Qed.

(** X14: what a run that returns leaves in the file of a stream, when
    it started without the file and the path of no other stream of the
    run leads to it: the keys of the first flattened record as the
    header row, and then for each RECORD of the stream, in order, the
    record's own fields in its own key order, whatever the header row
    says. *)
Theorem fresh_file_content output_folder stream messages fs v fs' :
  persist_messages messages output_folder fs = (inr v, fs') ->
  existsb (shares_file output_folder stream) messages = false ->
  fs !! locate (resolve output_folder stream) = None ->
  fs' !! locate (resolve output_folder stream)
  = match records_to output_folder (locate (resolve output_folder stream))
            messages with
    | [] => None
    | (first :: _) as records =>
        Some (writerow (keys (flatten str first "" "__"))
              +:+ writerows (own_row <$> records))
    end.
Proof.
  unfold persist_messages, bind.
  destruct (loop output_folder messages locals_init fs) as [[e|l'] fs1] eqn:Hl;
    [discriminate|].
  intros [= _ <-] Hshare Hfresh.
  rewrite (loop_own_rows output_folder stream messages Hshare _ _ _ _ Hl).
  - unfold file_is_empty. by rewrite Hfresh.
  - left. unfold file_is_empty. by rewrite Hfresh.
Qed.


(** X22: a RECORD that passes validation and whose file is not there or
    empty, but cannot be opened for appending (as for a stream name
    with a [/] in it when the folder has no such subfolder), ends the
    run with the exception of [open]; the files are as the messages
    before it left them. *)
Theorem open_failure_stops_run output_folder pre stream record post
    fs l fs1 schema e :
  loop output_folder pre locals_init fs = (inr l, fs1) ->
  schemas l !! stream = Some schema ->
  Draft4Validator schema (VDict record) = None ->
  file_is_empty fs1 (locate (resolve output_folder stream)) = true ->
  open_error (resolve output_folder stream) "a" = Some e ->
  persist_messages (pre ++ inr (RECORD stream record) :: post)
    output_folder fs
  = (inl e, fs1).
Proof.
  intros Hl Hs Hv Hempty Hopen. unfold persist_messages, bind.
  assert (Hc : compiled l).
  { eapply loop_compiled; [|exact Hl]. apply compiled_init. }
  rewrite loop_app, Hl, loop_cons.
  rewrite (body_record str Draft4Validator date locate open_error
             csv_record csv_next).
  rewrite bool_decide_eq_true_2 by (apply elem_of_dom; eauto). simpl.
  rewrite Hc, lookup_fmap, Hs. simpl. rewrite Hv.
  rewrite header_for_empty by exact Hempty.
  by rewrite Hopen.
Qed.

End RunMore.

(** ** File names *)

Lemma prefix_nil (s : string) : String.prefix "" s = true.
Proof. by destruct s. Qed.

Lemma prefix_sep_filename stream suffix :
  String.prefix "/" (stream +:+ "--" +:+ suffix) = String.prefix "/" stream.
Proof.
  destruct stream as [|c rest]; [reflexivity|].
  change (String c rest +:+ "--" +:+ suffix)
    with (String c (rest +:+ "--" +:+ suffix)).
  cbn [String.prefix]. destruct (Ascii.ascii_dec _ c); [|reflexivity].
  by rewrite !prefix_nil.
Qed.

(** X16: for a stream whose name begins with [/] the output folder has
    no part in the path of the file: the path is the stream name itself
    with the date and [.csv] after it, whatever the output folder is. *)
Theorem absolute_stream_ignores_folder date output_folder stream :
  String.prefix "/" stream = true ->
  resolve date output_folder stream = stream +:+ "--" +:+ date +:+ ".csv".
Proof.
  intros Habs. unfold resolve, os_path_join.
  by rewrite prefix_sep_filename, Habs.
Qed.

Lemma length_append (a b : string) :
  String.length (a +:+ b) = String.length a + String.length b.
Proof.
  induction a as [|x a IH]; [done|].
  change (S (String.length (a +:+ b)) = S (String.length a + String.length b)).
  by rewrite IH.
Qed.

Lemma append_inj_r (a b t : string) : a +:+ t = b +:+ t -> a = b.
Proof.
  revert b. induction a as [|x a IH]; intros [|y b] H.
  - done.
  - apply (f_equal String.length) in H.
    rewrite !length_append in H. simpl in H. lia.
  - apply (f_equal String.length) in H.
    rewrite !length_append in H. simpl in H. lia.
  - change (String x (a +:+ t) = String y (b +:+ t)) in H.
    injection H as -> H. f_equal. by apply IH.
Qed.

(** X17: two different stream names that do not begin with [/] are
    given different paths.  (Whether two different paths lead to one
    file, as [x] and [./x] do, is up to the file system.) *)
Theorem relative_streams_apart date output_folder stream1 stream2 :
  String.prefix "/" stream1 = false ->
  String.prefix "/" stream2 = false ->
  stream1 <> stream2 ->
  resolve date output_folder stream1 <> resolve date output_folder stream2.
Proof.
  intros H1 H2 Hne. unfold resolve, os_path_join.
  rewrite !prefix_sep_filename, H1, H2.
  destruct (negb (truthy output_folder) || endswith_sep output_folder);
    intros H; repeat apply append_inj in H;
    apply Hne, (append_inj_r _ _ ("--" +:+ date +:+ ".csv")); exact H.
Qed.

(** ** The entry point *)

Section MainProperties.

Variable str : value -> string.
Variable Draft4Validator : value -> validator.
Variable date : string.
Variable locate : string -> string.
Variable open_error : string -> string -> option exn.
Variable csv_record : row -> string.
Variable csv_next : string -> exn + row.
Variable json_dumps : value -> string.

Local Abbreviation persist_messages :=
  (persist_messages str Draft4Validator date locate open_error csv_record
     csv_next).
Local Abbreviation persist_messages_in :=
  (persist_messages_in str Draft4Validator date locate open_error csv_record
     csv_next).
Local Abbreviation main :=
  (main str Draft4Validator date locate open_error csv_record csv_next
     json_dumps).
Local Abbreviation emit_state := (emit_state json_dumps).

(** X18: with a string under ["output_folder"], whenever
    [persist_messages] returns the process ends normally, the files are
    those [persist_messages] leaves, and standard output receives one
    line, the JSON of the last STATE that no RECORD follows, or nothing
    at all when there is no such STATE or its value is null. *)
Theorem main_emits_checkpoint config output_folder messages fs stdout
    state fs' :
  getitem config "output_folder" = inr (VStr output_folder) ->
  persist_messages messages output_folder fs = (inr state, fs') ->
  exists os,
    messages = inr <$> os /\
    state = checkpoint os /\
    main (Some (inr config)) messages fs stdout
    = (inr (), fs',
       match checkpoint os with
       | VNone => stdout
       | state => stdout ++ [json_dumps state +:+ newline]
       end).
Proof.
  intros Hfolder Hrun.
  destruct (persist_messages_checkpoint str Draft4Validator date locate
              open_error csv_record csv_next _ _ _ _ _ Hrun)
    as (os & Hos & Hstate).
  exists os. split; [exact Hos|]. split; [exact Hstate|].
  unfold main. rewrite Hfolder. unfold persist_messages_in. rewrite Hrun.
  unfold emit_state. rewrite Hstate. by destruct (checkpoint os).
Qed.

(** X19: standard output receives at most one line, and only when the
    process ends normally: a run that ends with an exception, be it
    from the configuration or from a message, has printed nothing. *)
Theorem main_prints_on_success_only config_arg input_messages fs stdout :
  let end_ := main config_arg input_messages fs stdout in
  end_.2 = stdout \/
  end_.1.1 = inr () /\
  exists state, state <> VNone /\
                end_.2 = stdout ++ [json_dumps state +:+ newline].
Proof.
  unfold main.
  destruct config_arg as [[e|config]|]; simpl; try (by left).
  - destruct (getitem config "output_folder") as [e|folder]; [by left|].
    destruct (persist_messages_in input_messages folder fs) as [[e|st] fs'];
      [by left|].
    simpl. destruct st; try (by left);
      right; (split; [done|]); eexists; (split; [|reflexivity]); done.
Qed.

(** X20: without a usable ["output_folder"] (no [--config], a file that
    does not load, a configuration that is no mapping or lacks the key)
    the process ends with an exception before any message is looked at:
    no file is touched and nothing is printed.  Without [--config] the
    exception is the KeyError of ["output_folder"]. *)
Theorem main_needs_output_folder config_arg input_messages fs stdout :
  (forall config output_folder,
      config_arg = Some (inr config) ->
      getitem config "output_folder" <> inr output_folder) ->
  exists e,
    main config_arg input_messages fs stdout = (inl e, fs, stdout) /\
    (config_arg = None -> e = KeyError "output_folder").
Proof.
  intros Hno. unfold main.
  destruct config_arg as [[e|config]|].
  - exists e. by split.
  - destruct (getitem config "output_folder") as [e|folder] eqn:Hg.
    + exists e. by split.
    + by destruct (Hno config folder eq_refl).
  - by eexists.
Qed.



End MainProperties.

(** ** The further properties on concrete inputs *)

(** A flat mapping with a list in it. *)
Lemma flatten_flat_witness :
  NoDup (keys [("a", VInt 1); ("b", VList [VInt 2])]) /\
  flatten str_scalar [("a", VInt 1); ("b", VList [VInt 2])] "" "__"
  = [("a", VInt 1); ("b", VStr (str_scalar (VList [VInt 2])))].
Proof.
  assert (Hd : NoDup (keys [("a", VInt 1); ("b", VList [VInt 2])])).
  { apply (bool_decide_unpack _). reflexivity. }
  split; [exact Hd|].
  apply (flatten_flat str_scalar [("a", VInt 1); ("b", VList [VInt 2])] Hd).
  repeat constructor.
Defined.

(** A nested mapping under a key that is not empty. *)
Lemma flatten_refines_witness :
  flatten str_scalar [("a", VDict [("b", VDict [("c", VInt 1)])])] "" "__"
  = flatten_ref str_scalar [("a", VDict [("b", VDict [("c", VInt 1)])])].
Proof.
  apply flatten_refines. repeat constructor. simpl. discriminate.
Defined.

(** A run that returns: its RECORD follows its SCHEMA and conforms. *)
Lemma run_returns_only_if_accepted_witness :
  persist_messages_example
    [inr (SCHEMA "s" any_schema (VList []));
     inr (RECORD "s" [("a", VStr "1")]); inr (STATE (VInt 2))] "out" ∅
  = (inr (VInt 2), files_s_a) /\
  accepted Draft4Validator_example ∅
    [inr (SCHEMA "s" any_schema (VList []));
     inr (RECORD "s" [("a", VStr "1")]); inr (STATE (VInt 2))] = true.
Proof.
  assert (Hrun : persist_messages_example
                   [inr (SCHEMA "s" any_schema (VList []));
                    inr (RECORD "s" [("a", VStr "1")]);
                    inr (STATE (VInt 2))] "out" ∅
                 = (inr (VInt 2), files_s_a)) by reflexivity.
  split; [exact Hrun|].
  exact (run_returns_only_if_accepted str_scalar Draft4Validator_example
           run_date locate_plain open_freely csv_record_plain csv_next_plain
           _ _ _ _ _ Hrun).
Defined.

(** A RECORD without its SCHEMA: what follows it changes nothing. *)
Lemma exception_stops_run_witness :
  persist_messages_example
    ([inr (RECORD "orders" [("id", VInt 1)])]
       ++ [inr (SCHEMA "orders" any_schema (VList []));
           inr (RECORD "orders" [("id", VInt 2)])]) "out" ∅
  = (inl (MissingSchema "orders"), ∅).
Proof.
  apply exception_stops_run. reflexivity.
Defined.

(** A line that does not decode after a SCHEMA. *)
Lemma decode_failure_witness :
  persist_messages_example
    ([inr (SCHEMA "s" any_schema (VList []))]
       ++ inl JSONDecodeError :: [inr (STATE (VInt 1))]) "out" earlier_run
  = (inl JSONDecodeError, earlier_run).
Proof.
  apply (decode_failure str_scalar Draft4Validator_example run_date
           locate_plain open_freely csv_record_plain csv_next_plain "out"
           [inr (SCHEMA "s" any_schema (VList []))] JSONDecodeError
           [inr (STATE (VInt 1))] earlier_run locals_s earlier_run).
  reflexivity.
Defined.

(** The file of the earlier run is not the one of stream ["orders"]. *)
Lemma other_files_untouched_witness :
  (persist_messages_example
     [inr (SCHEMA "orders" any_schema (VList []));
      inr (RECORD "orders" [("id", VInt 1)])] "out" earlier_run).2
    !! "out/s--2026-11-04.csv"
  = earlier_run !! "out/s--2026-11-04.csv".
Proof.
  apply other_files_untouched. reflexivity.
Defined.

(** The second RECORD of stream ["s"], with another key. *)
Lemma later_record_own_keys_witness :
  loop_example "out"
    [inr (SCHEMA "s" any_schema (VList []));
     inr (RECORD "s" [("a", VStr "1")])] locals_init ∅
  = (inr locals_s_a, files_s_a) /\
  exists l',
    body_example "out" (RECORD "s" [("b", VStr "2")]) locals_s_a files_s_a
    = (inr l',
       <["out/s--2026-11-04.csv" := file_of [["a"]; ["1"]; ["2"]]]> files_s_a)
    /\ headers l' !! "s" = Some ["b"].
Proof.
  split; [reflexivity|].
  exact (later_record_own_keys str_scalar Draft4Validator_example run_date
           locate_plain open_freely csv_record_plain csv_next_plain
           "out" [inr (SCHEMA "s" any_schema (VList []));
                  inr (RECORD "s" [("a", VStr "1")])]
           ∅ locals_s_a files_s_a "s" [("b", VStr "2")] any_schema
           eq_refl eq_refl eq_refl eq_refl).
Defined.

(** A fresh file after two RECORDs with different keys. *)
Lemma fresh_file_content_witness :
  persist_messages_example
    [inr (SCHEMA "s" any_schema (VList []));
     inr (RECORD "s" [("a", VStr "1")]);
     inr (RECORD "s" [("b", VStr "2")])] "out" ∅
  = (inr VNone,
     {["out/s--2026-11-04.csv" := file_of [["a"]; ["1"]; ["2"]]]}) /\
  ({["out/s--2026-11-04.csv" := file_of [["a"]; ["1"]; ["2"]]]}
     : filesystem) !! "out/s--2026-11-04.csv"
  = Some (file_of [["a"]; ["1"]; ["2"]]).
Proof.
  assert (Hrun : persist_messages_example
                   [inr (SCHEMA "s" any_schema (VList []));
                    inr (RECORD "s" [("a", VStr "1")]);
                    inr (RECORD "s" [("b", VStr "2")])] "out" ∅
                 = (inr VNone,
                    {["out/s--2026-11-04.csv" :=
                        file_of [["a"]; ["1"]; ["2"]]]}))
    by reflexivity.
  split; [exact Hrun|].
  exact (fresh_file_content str_scalar Draft4Validator_example run_date
           locate_plain open_freely csv_record_plain csv_next_plain
           "out" "s" _ ∅ _ _ Hrun eq_refl eq_refl).
Defined.


(** The stream ["a/b"] in a folder ["out"] that has no subfolder ["a"]. *)
Lemma open_failure_stops_run_witness :
  persist_messages str_scalar Draft4Validator_example run_date locate_plain
    open_no_subfolder csv_record_plain csv_next_plain
    ([inr (SCHEMA "a/b" any_schema (VList []))]
       ++ inr (RECORD "a/b" [("id", VInt 1)]) :: [inr (STATE (VInt 7))])
    "out" ∅
  = (inl (OtherError "FileNotFoundError"), ∅).
Proof.
  apply (open_failure_stops_run str_scalar Draft4Validator_example run_date
           locate_plain open_no_subfolder csv_record_plain csv_next_plain
           "out" [inr (SCHEMA "a/b" any_schema (VList []))] "a/b"
           [("id", VInt 1)] [inr (STATE (VInt 7))] ∅
           {| state := VNone;
              schemas := {["a/b" := any_schema]};
              key_properties := {["a/b" := VList []]};
              headers := ∅;
              validators := {["a/b" := Draft4Validator_example any_schema]} |}
           ∅ any_schema (OtherError "FileNotFoundError"));
    reflexivity.
Defined.

(** The stream ["/tmp/x"] with the output folder ["out"]. *)
Lemma absolute_stream_ignores_folder_witness :
  resolve run_date "out" "/tmp/x" = "/tmp/x--2026-11-04.csv".
Proof.
  apply (absolute_stream_ignores_folder run_date "out" "/tmp/x"). reflexivity.
Defined.

(** The streams ["orders"] and ["users"] in the folder ["out"]. *)
Lemma relative_streams_apart_witness :
  resolve run_date "out" "orders" <> resolve run_date "out" "users".
Proof.
  apply relative_streams_apart; [reflexivity|reflexivity|discriminate].
Defined.

(** A whole process: one RECORD, then the checkpoint 7. *)
Lemma main_emits_checkpoint_witness :
  persist_messages_example
    [inr (SCHEMA "s" any_schema (VList []));
     inr (RECORD "s" [("a", VStr "1")]); inr (STATE (VInt 7))] "out" ∅
  = (inr (VInt 7), files_s_a) /\
  main_example (Some (inr (VDict [("output_folder", VStr "out")])))
    [inr (SCHEMA "s" any_schema (VList []));
     inr (RECORD "s" [("a", VStr "1")]); inr (STATE (VInt 7))] ∅ []
  = (inr (), files_s_a, ["7" +:+ newline]).
Proof.
  assert (Hrun : persist_messages_example
                   [inr (SCHEMA "s" any_schema (VList []));
                    inr (RECORD "s" [("a", VStr "1")]);
                    inr (STATE (VInt 7))] "out" ∅
                 = (inr (VInt 7), files_s_a)) by reflexivity.
  split; [exact Hrun|].
  destruct (main_emits_checkpoint str_scalar Draft4Validator_example run_date
              locate_plain open_freely csv_record_plain csv_next_plain
              json_dumps_scalar (VDict [("output_folder", VStr "out")]) "out"
              _ ∅ [] _ _ eq_refl Hrun) as (os & Hos & Hstate & Hmain).
  rewrite <- Hstate in Hmain. exact Hmain.
Defined.

(** The process started without [--config]. *)
Lemma main_needs_output_folder_witness :
  exists e,
    main_example None [inr (STATE (VInt 7))] earlier_run []
    = (inl e, earlier_run, []) /\
    ((None : option (exn + value)) = None -> e = KeyError "output_folder").
Proof.
  apply main_needs_output_folder. discriminate.
Defined.

